(** * Claude Nook hook: connection and handshake protocol

    A shallow embedding of [claude-nook-state.py] (module [Nook]) and of its
    predecessor [claude-island-state.py] (module [Island]): the address
    classifier, the host resolver, the two transports with their greeting
    and authentication exchange, the connection strategy, and [main] with
    its handling of permission decisions.

    Python text ([str]) is a list of code points, [bytes] a list of bytes. A
    call either returns or raises: computations live in a state and error
    monad over the configuration singleton and a trace. Calls that reach
    outside the process (sockets, the filesystem, child processes) are
    answered by an [environment], a function of the trace so far; every such
    call is appended to the trace with its answer. The one loop without a
    bound, the wait for the answer to the AUTH line, takes fuel.

    Module [Example] has a runtime and scripted environments to run the
    hooks on concrete inputs; the properties come last. *)

From Stdlib Require Import Strings.String Strings.Ascii Strings.Byte.
From Stdlib Require Import List ZArith NArith Bool Lia QArith DecimalString.
Import ListNotations.

Local Open Scope N_scope.

(** ** Python text and bytes *)

Definition str := list N.
Definition bytes := list byte.

(** An ASCII literal as Python text, and as Python bytes. *)
Definition lit (s : string) : str := map Byte.to_N (list_byte_of_string s).
Definition blit (s : string) : bytes := list_byte_of_string s.

Fixpoint str_eqb (a b : str) : bool :=
  match a, b with
  | [], [] => true
  | x :: a', y :: b' => (x =? y) && str_eqb a' b'
  | _, _ => false
  end.

(** Truth value of a text or bytes object: non-empty. *)
Definition nonempty {A : Type} (l : list A) : bool :=
  match l with [] => false | _ :: _ => true end.

(** [s.split(sep)] for a one-character separator [sep]. *)
Fixpoint str_split (sep : N) (s : str) : list str :=
  match s with
  | [] => [[]]
  | c :: t =>
      if c =? sep then [] :: str_split sep t
      else match str_split sep t with
           | p :: ps => (c :: p) :: ps
           | [] => [[c]]
           end
  end.

(** [Py_UNICODE_ISSPACE]: the characters removed by [str.strip()]. *)
Definition is_unicode_space (c : N) : bool :=
  ((9 <=? c) && (c <=? 13)) || ((28 <=? c) && (c <=? 32))
  || (c =? 0x85) || (c =? 0xA0) || (c =? 0x1680)
  || ((0x2000 <=? c) && (c <=? 0x200A))
  || (c =? 0x2028) || (c =? 0x2029) || (c =? 0x202F) || (c =? 0x205F)
  || (c =? 0x3000).

Fixpoint lstrip (s : str) : str :=
  match s with
  | c :: t => if is_unicode_space c then lstrip t else s
  | [] => []
  end.

(** [s.strip()]. *)
Definition strip (s : str) : str := rev (lstrip (rev (lstrip s))).

(** ** Exceptions *)

Inductive exn :=
| TimeoutError            (* socket.timeout *)
| ConnectionRefusedError
| FileNotFoundError
| PermissionError
| OSError                 (* any other operating-system error *)
| JSONDecodeError
| UnicodeDecodeError
| UnicodeEncodeError
| ValueError
| UnboundLocalError
| AttributeError
| TimeoutExpired          (* subprocess.TimeoutExpired *)
| OverflowError
| SystemExit (code : Z).

(** [isinstance(e, OSError)]; [socket.error] is the same class. *)
Definition is_OSError (e : exn) : bool :=
  match e with
  | TimeoutError | ConnectionRefusedError | FileNotFoundError
  | PermissionError | OSError => true
  | _ => false
  end.

Definition is_TimeoutError (e : exn) : bool :=
  match e with TimeoutError => true | _ => false end.

Definition is_FileNotFoundError (e : exn) : bool :=
  match e with FileNotFoundError => true | _ => false end.

Definition is_ConnectionRefusedError (e : exn) : bool :=
  match e with ConnectionRefusedError => true | _ => false end.

Definition is_JSONDecodeError (e : exn) : bool :=
  match e with JSONDecodeError => true | _ => false end.

Definition is_TimeoutExpired (e : exn) : bool :=
  match e with TimeoutExpired => true | _ => false end.

Definition is_AttributeError (e : exn) : bool :=
  match e with AttributeError => true | _ => false end.

(** [isinstance(e, Exception)] *)
Definition is_Exception (e : exn) : bool :=
  match e with SystemExit _ => false | _ => true end.

(** ** Python values

    The values that [json.loads] produces and [json.dumps] accepts. [VNone] is
    Python's [None]; a [float] is named by its [repr], which is all the hook
    can observe of it; a [dict] keeps its keys in insertion order. *)

#[local] Set Warnings "-register-all".

Inductive value :=
| VNone
| VBool (b : bool)
| VInt (z : Z)
| VFloat (repr : str)
| VStr (s : str)
| VList (l : list value)
| VDict (d : list (str * value)).

Definition dict := list (str * value).

(** [bool(v)] *)
Definition truthy (v : value) : bool :=
  match v with
  | VNone => false
  | VBool b => b
  | VInt z => negb (z =? 0)%Z
  | VFloat r => negb (str_eqb r (lit "0.0") || str_eqb r (lit "-0.0"))
  | VStr s => nonempty s
  | VList l => nonempty l
  | VDict d => nonempty d
  end.

(** [v == s] for a text literal [s]. *)
Definition is_str (v : value) (s : str) : bool :=
  match v with VStr t => str_eqb t s | _ => false end.

(** [v is None] *)
Definition is_None (v : value) : bool :=
  match v with VNone => true | _ => false end.

Fixpoint dict_get (d : dict) (k : str) : option value :=
  match d with
  | [] => None
  | (k', v) :: d' => if str_eqb k' k then Some v else dict_get d' k
  end.

(** [d[k] = v] *)
Fixpoint dict_set (d : dict) (k : str) (v : value) : dict :=
  match d with
  | [] => [(k, v)]
  | (k', v') :: d' =>
      if str_eqb k' k then (k', v) :: d' else (k', v') :: dict_set d' k v
  end.

(** ** The Python runtime

    What the hook uses of the interpreter and its standard library without
    defining it: the decimal value the Unicode database gives to a non-ASCII
    character (if any); the limit on the number of digits [int] accepts
    ([sys.get_int_max_str_digits()], 0 when there is none; it is only
    consulted above 640 digits); [json.loads], which returns a value or
    raises; and [json.dumps(v).encode()], whose output is ASCII. *)
Record runtime := {
  unicode_decimal : N -> option N;
  int_max_str_digits : N;
  json_loads : str -> exn + value;
  json_dumps : value -> bytes
}.

(** *** [int(s)] on text *)

Section PyInt.
Variable py : runtime.

(** White space skipped by [int]: [Py_ISSPACE] below 127, Unicode white
    space above. *)
Definition int_space (c : N) : bool :=
  if c <? 127 then ((9 <=? c) && (c <=? 13)) || (c =? 32)
  else is_unicode_space c.

Definition int_digit (c : N) : option N :=
  if c <? 127 then
    if (48 <=? c) && (c <=? 57) then Some (c - 48) else None
  else unicode_decimal py c.

Fixpoint skip_int_space (s : str) : str :=
  match s with
  | c :: t => if int_space c then skip_int_space t else s
  | [] => []
  end.

(** Digits, with single underscores between them: the value read, the
    number of digits, and the text that follows. *)
Fixpoint scan_digits (s : str) (prev_underscore : bool) (acc count : N)
  : option (N * N * str) :=
  match s with
  | [] => if prev_underscore then None else Some (acc, count, [])
  | c :: t =>
      if c =? 95 then
        if prev_underscore then None else scan_digits t true acc count
      else
        match int_digit c with
        | Some d => scan_digits t false (10 * acc + d) (count + 1)
        | None => if prev_underscore then None else Some (acc, count, s)
        end
  end.

Definition too_many_digits (count : N) : bool :=
  (640 <? count) && (0 <? int_max_str_digits py)
  && (int_max_str_digits py <? count).

(** [int(s)]; [None] stands for [ValueError]. *)
Definition py_int (s : str) : option Z :=
  let s1 := skip_int_space s in
  let '(negative, s2) :=
    match s1 with
    | 43 :: t => (false, t)
    | 45 :: t => (true, t)
    | _ => (false, s1)
    end in
  match s2 with
  | 95 :: _ => None
  | _ =>
      match scan_digits s2 false 0 0 with
      | None => None
      | Some (v, count, rest) =>
          if count =? 0 then None
          else if too_many_digits count then None
          else
            match skip_int_space rest with
            | [] => Some (if negative then (- Z.of_N v)%Z else Z.of_N v)
            | _ :: _ => None
            end
      end
  end.
End PyInt.

(** ** The UTF-8 codec

    [b.decode()] and [s.encode()] with the default codec and error handling:
    [None] stands for [UnicodeDecodeError] and [UnicodeEncodeError]. *)

Definition is_cont (b : N) : bool := (0x80 <=? b) && (b <=? 0xBF).

Definition second_of_three (c0 c1 : N) : bool :=
  if c0 =? 0xE0 then (0xA0 <=? c1) && (c1 <=? 0xBF)
  else if c0 =? 0xED then (0x80 <=? c1) && (c1 <=? 0x9F)
  else is_cont c1.

Definition second_of_four (c0 c1 : N) : bool :=
  if c0 =? 0xF0 then (0x90 <=? c1) && (c1 <=? 0xBF)
  else if c0 =? 0xF4 then (0x80 <=? c1) && (c1 <=? 0x8F)
  else is_cont c1.

Fixpoint bytes_decode (bs : bytes) : option str :=
  match bs with
  | [] => Some []
  | b0 :: t0 =>
      let c0 := Byte.to_N b0 in
      if c0 <? 0x80 then option_map (cons c0) (bytes_decode t0)
      else
        match t0 with
        | [] => None
        | b1 :: t1 =>
            let c1 := Byte.to_N b1 in
            if (0xC2 <=? c0) && (c0 <=? 0xDF) then
              if is_cont c1 then
                option_map (cons ((c0 - 0xC0) * 64 + (c1 - 0x80)))
                           (bytes_decode t1)
              else None
            else
              match t1 with
              | [] => None
              | b2 :: t2 =>
                  let c2 := Byte.to_N b2 in
                  if (0xE0 <=? c0) && (c0 <=? 0xEF) then
                    if second_of_three c0 c1 && is_cont c2 then
                      option_map
                        (cons ((c0 - 0xE0) * 4096 + (c1 - 0x80) * 64
                               + (c2 - 0x80)))
                        (bytes_decode t2)
                    else None
                  else
                    match t2 with
                    | [] => None
                    | b3 :: t3 =>
                        let c3 := Byte.to_N b3 in
                        if (0xF0 <=? c0) && (c0 <=? 0xF4) then
                          if second_of_four c0 c1 && is_cont c2 && is_cont c3
                          then
                            option_map
                              (cons ((c0 - 0xF0) * 262144
                                     + (c1 - 0x80) * 4096
                                     + (c2 - 0x80) * 64 + (c3 - 0x80)))
                              (bytes_decode t3)
                          else None
                        else None
                    end
              end
        end
  end.

Definition byte_of (n : N) : byte :=
  match Byte.of_N n with Some b => b | None => x00 end.

Definition encode_char (c : N) : option bytes :=
  if c <? 0x80 then Some [byte_of c]
  else if c <? 0x800 then
    Some [byte_of (0xC0 + c / 64); byte_of (0x80 + c mod 64)]
  else if c <? 0x10000 then
    if (0xD800 <=? c) && (c <=? 0xDFFF) then None
    else Some [byte_of (0xE0 + c / 4096); byte_of (0x80 + (c / 64) mod 64);
               byte_of (0x80 + c mod 64)]
  else if c <? 0x110000 then
    Some [byte_of (0xF0 + c / 262144); byte_of (0x80 + (c / 4096) mod 64);
          byte_of (0x80 + (c / 64) mod 64); byte_of (0x80 + c mod 64)]
  else None.

Fixpoint str_encode (s : str) : option bytes :=
  match s with
  | [] => Some []
  | c :: t =>
      match encode_char c, str_encode t with
      | Some b, Some bs => Some (b ++ bs)
      | _, _ => None
      end
  end.

(** [b"\n" in buf] *)
Definition has_newline (buf : bytes) : bool :=
  existsb (fun b => Byte.to_N b =? 10) buf.

(** ** The world outside the process

    A socket object is named by the position in the trace of the call that
    created it. *)

Definition sock := nat.

Inductive family := AF_UNIX | AF_INET.

Inductive address :=
| UnixPath (path : str)
| InetAddr (host : str) (port : Z).

(** One entry per call, with what it was given and what came back; for the
    fallible calls [None] or [inr] is success and an exception is the
    failure. Time-outs are in seconds. *)
Inductive event :=
| EvSocket (f : family) (r : option exn)
| EvSetTimeout (s : sock) (seconds : Q)
| EvConnect (s : sock) (a : address) (r : option exn)
| EvSendAll (s : sock) (data : bytes) (r : option exn)
| EvRecv (s : sock) (bufsize : nat) (r : exn + bytes)
| EvClose (s : sock)
| EvPathExists (path : str) (r : bool)
| EvRun (argv : list str) (seconds : Z) (r : exn + str)
| EvGetppid (pid : Z)
| EvTtyname (fd : Z) (r : exn + str)
| EvPrint (text : bytes).

Record environment := {
  os_socket : list event -> family -> option exn;
  os_connect : list event -> sock -> address -> option exn;
  os_sendall : list event -> sock -> bytes -> option exn;
  os_recv : list event -> sock -> nat -> exn + bytes;
  os_path_exists : list event -> str -> bool;
  os_run : list event -> list str -> Z -> exn + str;
  os_getppid : list event -> Z;
  os_ttyname : list event -> Z -> exn + str
}.

(** ** Computations

    A Python call either returns or raises; [OutOfFuel] is a loop that was
    cut off. The state is the configuration singleton and the trace. *)

Inductive outcome (A : Type) :=
| Return (a : A)
| Raise (e : exn)
| OutOfFuel.
Arguments Return {A} a.
Arguments Raise {A} e.
Arguments OutOfFuel {A}.

Record world (C : Type) := World { config : C; trace : list event }.
Arguments World {C} config trace.
Arguments config {C} w.
Arguments trace {C} w.

Definition M (C A : Type) := world C -> outcome A * world C.

Section Monad.
Context {C : Type}.

Definition ret {A} (a : A) : M C A := fun w => (Return a, w).

Definition raise {A} (e : exn) : M C A := fun w => (Raise e, w).

Definition out_of_fuel {A} : M C A := fun w => (OutOfFuel, w).

Definition bind {A B} (m : M C A) (k : A -> M C B) : M C B :=
  fun w =>
    match m w with
    | (Return a, w') => k a w'
    | (Raise e, w') => (Raise e, w')
    | (OutOfFuel, w') => (OutOfFuel, w')
    end.

(** [try: body except ...]: [handler e] is the body of the first clause
    that matches [e], if there is one. *)
Definition try_except {A} (body : M C A) (handler : exn -> option (M C A))
  : M C A :=
  fun w =>
    match body w with
    | (Raise e, w') =>
        match handler e with
        | Some h => h w'
        | None => (Raise e, w')
        end
    | r => r
    end.

Definition get_config : M C C := fun w => (Return (config w), w).

Definition set_config (c : C) : M C unit :=
  fun w => (Return tt, World c (trace w)).

Definition emit (e : event) : M C unit :=
  fun w => (Return tt, World (config w) (trace w ++ [e])).

Definition history : M C (list event) := fun w => (Return (trace w), w).

(** An optional result of the standard library, raising [e] when absent. *)
Definition or_raise {A} (o : option A) (e : exn) : M C A :=
  match o with Some a => ret a | None => raise e end.
End Monad.

Declare Scope py_scope.
Delimit Scope py_scope with py.
Notation "x <- m ;; k" := (bind m (fun x => k))
  (at level 61, m at next level, right associativity) : py_scope.
Notation "m ;; k" := (bind m (fun _ => k))
  (at level 61, right associativity) : py_scope.
Local Open Scope py_scope.

(** ** Sockets and the other system calls *)

Section System.
Context {C : Type}.
Variable env : environment.

(** [socket.socket(f, socket.SOCK_STREAM)] *)
Definition socket_socket (f : family) : M C sock :=
  h <- history ;;
  let r := os_socket env h f in
  emit (EvSocket f r) ;;
  match r with
  | None => ret (length h)
  | Some e => raise e
  end.

(** A time-out is kept as a number of nanoseconds in 64 bits: [t] does not
    fit when [t] seconds are more of them than that. For a whole number of
    seconds that is above 9223372036 or below -9223372036. *)
Definition timeout_overflows (t : Q) : bool :=
  (9223372036854775807 * Zpos (Qden t) <? Z.abs (Qnum t) * 1000000000)%Z.

(** [s.settimeout(t)]: a time-out that does not fit is an [OverflowError],
    and a negative one that fits is a [ValueError]; in both cases the
    time-out of the socket is not changed. *)
Definition settimeout (s : sock) (t : Q) : M C unit :=
  if timeout_overflows t then raise OverflowError
  else if (Qnum t <? 0)%Z then raise ValueError
  else emit (EvSetTimeout s t).

(** [s.connect(a)] *)
Definition connect (s : sock) (a : address) : M C unit :=
  h <- history ;;
  let r := os_connect env h s a in
  emit (EvConnect s a r) ;;
  match r with None => ret tt | Some e => raise e end.

(** [s.sendall(data)] *)
Definition sendall (s : sock) (data : bytes) : M C unit :=
  h <- history ;;
  let r := os_sendall env h s data in
  emit (EvSendAll s data r) ;;
  match r with None => ret tt | Some e => raise e end.

(** [s.recv(bufsize)]: at most [bufsize] bytes; none when the peer has
    closed the connection. *)
Definition recv (s : sock) (bufsize : nat) : M C bytes :=
  h <- history ;;
  match os_recv env h s bufsize with
  | inl e => emit (EvRecv s bufsize (inl e)) ;; raise e
  | inr b =>
      let b' := firstn bufsize b in
      emit (EvRecv s bufsize (inr b')) ;; ret b'
  end.

(** [s.close()] *)
Definition close (s : sock) : M C unit := emit (EvClose s).

(** [os.path.exists(path)] *)
Definition path_exists (path : str) : M C bool :=
  h <- history ;;
  let r := os_path_exists env h path in
  emit (EvPathExists path r) ;; ret r.

(** [subprocess.run(argv, capture_output=True, text=True, timeout=t)]:
    the standard output of the child. *)
Definition subprocess_run (argv : list str) (t : Z) : M C str :=
  h <- history ;;
  let r := os_run env h argv t in
  emit (EvRun argv t r) ;;
  match r with inr out => ret out | inl e => raise e end.

(** [os.getppid()] *)
Definition getppid : M C Z :=
  h <- history ;;
  let r := os_getppid env h in
  emit (EvGetppid r) ;; ret r.

(** [os.ttyname(fd)] *)
Definition ttyname (fd : Z) : M C str :=
  h <- history ;;
  let r := os_ttyname env h fd in
  emit (EvTtyname fd r) ;;
  match r with inr name => ret name | inl e => raise e end.

(** [print(text)] *)
Definition print (text : bytes) : M C unit := emit (EvPrint text).

(** [sys.exit(code)] *)
Definition sys_exit {A} (code : Z) : M C A := raise (SystemExit code).
End System.

(** ** The configuration singleton

    [ConnectionConfig] of [claude-nook-state.py]. The class of
    [claude-island-state.py] has the first seven fields only; module [Island]
    neither reads nor writes the last two. *)

Record ConnectionConfig := {
  socket_path : str;
  host : str;
  port : Z;
  token : str;
  mode : str;
  timeout : Z;
  debug : bool;
  _discovered_host : option str;
  _discovery_attempted : bool
}.

Definition with_discovery_attempted (c : ConnectionConfig) (b : bool) :=
  {| socket_path := socket_path c; host := host c; port := port c;
     token := token c; mode := mode c; timeout := timeout c;
     debug := debug c; _discovered_host := _discovered_host c;
     _discovery_attempted := b |}.

Definition with_discovered_host (c : ConnectionConfig) (h : option str) :=
  {| socket_path := socket_path c; host := host c; port := port c;
     token := token c; mode := mode c; timeout := timeout c;
     debug := debug c; _discovered_host := h;
     _discovery_attempted := _discovery_attempted c |}.

Definition with_port (c : ConnectionConfig) (p : Z) :=
  {| socket_path := socket_path c; host := host c; port := p;
     token := token c; mode := mode c; timeout := timeout c;
     debug := debug c; _discovered_host := _discovered_host c;
     _discovery_attempted := _discovery_attempted c |}.

(** [os.environ.get(name, default)] *)
Fixpoint environ_get (environ : list (str * str)) (name default : str) : str :=
  match environ with
  | [] => default
  | (k, v) :: rest =>
      if str_eqb k name then v else environ_get rest name default
  end.

Definition Py := M ConnectionConfig.

(** ** What the two hooks share

    [config.log] writes to the standard error stream when debugging is on and
    does nothing else; its calls are left out, but an argument of a call that
    can raise is still evaluated. *)

Section Shared.
Variable py : runtime.
Variable env : environment.

(** The [except] clauses of [send_via_socket], each [return None]. *)
Definition except_socket (e : exn) : option (Py value) :=
  if is_FileNotFoundError e then Some (ret VNone)
  else if is_OSError e then Some (ret VNone)
  else if is_JSONDecodeError e then Some (ret VNone)
  else None.

(** The [except] clauses of [send_via_tcp], each [return None]. *)
Definition except_tcp (e : exn) : option (Py value) :=
  if is_TimeoutError e then Some (ret VNone)
  else if is_ConnectionRefusedError e then Some (ret VNone)
  else if is_OSError e then Some (ret VNone)
  else if is_JSONDecodeError e then Some (ret VNone)
  else None.

(** The payload and the reply, as both transports of both hooks have it:
    [sock.sendall(json.dumps(state).encode())] and what follows, up to the
    final [return None]. *)
Definition send_payload (s : sock) (state : dict) (wait_for_response : bool)
  : Py value :=
  sendall env s (json_dumps py (VDict state)) ;;
  if wait_for_response then
    response <- recv env s 4096 ;;
    close s ;;
    if nonempty response then
      _ <- or_raise (bytes_decode response) UnicodeDecodeError ;;
      text <- or_raise (bytes_decode response) UnicodeDecodeError ;;
      match json_loads py text with
      | inr v => ret v
      | inl e => raise e
      end
    else ret VNone
  else
    close s ;;
    ret VNone.

(** [send_via_socket(state, wait_for_response)] *)
Definition send_via_socket (state : dict) (wait_for_response : bool)
  : Py value :=
  try_except
    (c <- get_config ;;
     s <- socket_socket env AF_UNIX ;;
     settimeout s (inject_Z (timeout c)) ;;
     connect env s (UnixPath (socket_path c)) ;;
     send_payload s state wait_for_response)
    except_socket.

(** The loop [while b"\n" not in auth_response]: the buffer once it holds
    a newline, or [None] after [sock.close()] when the peer closed first.
    [fuel] bounds the number of [recv] calls. *)
Fixpoint read_auth_response (fuel : nat) (s : sock) (auth_response : bytes)
  : Py (option bytes) :=
  if has_newline auth_response then ret (Some auth_response)
  else
    match fuel with
    | O => out_of_fuel
    | S fuel' =>
        chunk <- recv env s 64 ;;
        if negb (nonempty chunk) then close s ;; ret None
        else read_auth_response fuel' s (auth_response ++ chunk)
    end.

(** The authentication exchange of [send_via_tcp], from [auth_line = ...]
    to the payload. *)
Definition authenticate (fuel : nat) (s : sock) (state : dict)
           (wait_for_response : bool) : Py value :=
  c <- get_config ;;
  auth_line <- or_raise (str_encode (lit "AUTH " ++ token c ++ [10]))
                        UnicodeEncodeError ;;
  sendall env s auth_line ;;
  auth_response <- read_auth_response fuel s [] ;;
  match auth_response with
  | None => ret VNone
  | Some buf =>
      text <- or_raise (bytes_decode buf) UnicodeDecodeError ;;
      let auth_result := strip text in
      if negb (str_eqb auth_result (lit "OK")) then close s ;; ret VNone
      else send_payload s state wait_for_response
  end.

(** [v.get(key, default)]: only a [dict] has the method. *)
Definition py_get (v : value) (key : str) (default : value) : Py value :=
  match v with
  | VDict d =>
      ret (match dict_get d key with Some x => x | None => default end)
  | _ => raise AttributeError
  end.

Definition str_of_Z (z : Z) : str :=
  lit (NilZero.string_of_int (Z.to_int z)).

Fixpoint starts_with (s prefix : str) : bool :=
  match prefix, s with
  | [], _ => true
  | p :: prefix', c :: s' => (c =? p) && starts_with s' prefix'
  | _ :: _, [] => false
  end.

(** [get_tty()]; the standard input and output are descriptors 0 and 1. *)
Definition get_tty : Py value :=
  ppid <- getppid env ;;
  from_ps <-
    try_except
      (out <- subprocess_run env
                [lit "ps"; lit "-p"; str_of_Z ppid; lit "-o"; lit "tty="] 2 ;;
       let tty := strip out in
       if nonempty tty && negb (str_eqb tty (lit "??"))
          && negb (str_eqb tty (lit "-"))
       then ret (Some (if negb (starts_with tty (lit "/dev/"))
                       then lit "/dev/" ++ tty else tty))
       else ret None)
      (fun e => if is_Exception e then Some (ret None) else None) ;;
  match from_ps with
  | Some tty => ret (VStr tty)
  | None =>
      let except_tty e :=
        if is_OSError e || is_AttributeError e
        then Some (ret (None : option str)) else None in
      from_stdin <-
        try_except (name <- ttyname env 0 ;; ret (Some name)) except_tty ;;
      match from_stdin with
      | Some name => ret (VStr name)
      | None =>
          from_stdout <-
            try_except (name <- ttyname env 1 ;; ret (Some name))
                       except_tty ;;
          match from_stdout with
          | Some name => ret (VStr name)
          | None => ret VNone
          end
      end
  end.

(** *** [main]

    The two hooks differ in the [send_event] they call and in the message
    of a denial without a reason. *)
Variable send_event : dict -> bool -> Py value.
Variable denied_by_user : str.

Definition allow_output : value :=
  VDict [(lit "hookSpecificOutput",
          VDict [(lit "hookEventName", VStr (lit "PermissionRequest"));
                 (lit "decision",
                  VDict [(lit "behavior", VStr (lit "allow"))])])].

Definition deny_output (message : value) : value :=
  VDict [(lit "hookSpecificOutput",
          VDict [(lit "hookEventName", VStr (lit "PermissionRequest"));
                 (lit "decision",
                  VDict [(lit "behavior", VStr (lit "deny"));
                         (lit "message", message)])])].

(** From [if response:] to the final [sys.exit(0)] of the
    [PermissionRequest] branch. *)
Definition permission_outcome (response : value) : Py unit :=
  if truthy response then
    decision <- py_get response (lit "decision") (VStr (lit "ask")) ;;
    reason <- py_get response (lit "reason") (VStr []) ;;
    if is_str decision (lit "allow") then
      print (json_dumps py allow_output) ;;
      sys_exit 0
    else if is_str decision (lit "deny") then
      print (json_dumps py
               (deny_output (if truthy reason then reason
                             else VStr denied_by_user))) ;;
      sys_exit 0
    else sys_exit 0
  else sys_exit 0.

(** The [PermissionRequest] branch once [state] is complete. *)
Definition permission_request (state : dict) : Py unit :=
  response <- send_event state true ;;
  permission_outcome response.

(** [state["tool"]], [state["tool_input"]] and, when [with_id], a truthy
    [state["tool_use_id"]]. *)
Definition with_tool (data : value) (tool_input : value) (with_id : bool)
           (state : dict) : Py dict :=
  tool_name <- py_get data (lit "tool_name") VNone ;;
  let state := dict_set state (lit "tool") tool_name in
  let state := dict_set state (lit "tool_input") tool_input in
  if with_id then
    tool_use_id_from_event <- py_get data (lit "tool_use_id") VNone ;;
    ret (if truthy tool_use_id_from_event
         then dict_set state (lit "tool_use_id") tool_use_id_from_event
         else state)
  else ret state.

Definition with_status (state : dict) (status : string) : dict :=
  dict_set state (lit "status") (VStr (lit status)).

(** [main()] of either hook, given the text on the standard input. *)
Definition hook_main (stdin : str) : Py unit :=
  data <- try_except
            (match json_loads py stdin with
             | inr v => ret v
             | inl e => raise e
             end)
            (fun e => if is_JSONDecodeError e then Some (sys_exit 1)
                      else None) ;;
  session_id <- py_get data (lit "session_id") (VStr (lit "unknown")) ;;
  event <- py_get data (lit "hook_event_name") (VStr []) ;;
  cwd <- py_get data (lit "cwd") (VStr []) ;;
  tool_input <- py_get data (lit "tool_input") (VDict []) ;;
  claude_pid <- getppid env ;;
  tty <- get_tty ;;
  let state : dict :=
    [(lit "session_id", session_id); (lit "cwd", cwd);
     (lit "event", event); (lit "pid", VInt claude_pid);
     (lit "tty", tty)] in
  let finish (state : dict) : Py unit :=
    _ <- send_event state false ;; ret tt in
  if is_str event (lit "UserPromptSubmit") then
    finish (with_status state "processing")
  else if is_str event (lit "PreToolUse") then
    state <- with_tool data tool_input true
               (with_status state "running_tool") ;;
    finish state
  else if is_str event (lit "PostToolUse") then
    state <- with_tool data tool_input true
               (with_status state "processing") ;;
    finish state
  else if is_str event (lit "PermissionRequest") then
    state <- with_tool data tool_input false
               (with_status state "waiting_for_approval") ;;
    permission_request state
  else if is_str event (lit "Notification") then
    notification_type <- py_get data (lit "notification_type") VNone ;;
    if is_str notification_type (lit "permission_prompt") then sys_exit 0
    else
      let state :=
        if is_str notification_type (lit "idle_prompt")
        then with_status state "waiting_for_input"
        else with_status state "notification" in
      let state :=
        dict_set state (lit "notification_type") notification_type in
      message <- py_get data (lit "message") VNone ;;
      finish (dict_set state (lit "message") message)
  else if is_str event (lit "Stop") then
    finish (with_status state "waiting_for_input")
  else if is_str event (lit "SubagentStop") then
    finish (with_status state "waiting_for_input")
  else if is_str event (lit "SessionStart") then
    finish (with_status state "waiting_for_input")
  else if is_str event (lit "SessionEnd") then
    finish (with_status state "ended")
  else if is_str event (lit "PreCompact") then
    finish (with_status state "compacting")
  else
    finish (with_status state "unknown").
End Shared.

(** ** [claude-nook-state.py] *)

Module Nook.

Section Hook.
Variable py : runtime.
Variable env : environment.

(** [is_tailscale_ip(ip)] *)
Definition is_tailscale_ip (ip : str) : bool :=
  let parts := str_split 46 ip in
  if negb (Nat.eqb (length parts) 4) then false
  else
    match py_int py (nth 0 parts []) with
    | None => false
    | Some first =>
        match py_int py (nth 1 parts []) with
        | None => false
        | Some second =>
            (first =? 100)%Z && ((64 <=? second)%Z && (second <=? 127)%Z)
        end
    end.

(** [ConnectionConfig()]; [None] stands for the [ValueError] of [int]. *)
Definition ConnectionConfig_init (environ : list (str * str))
  : option ConnectionConfig :=
  match py_int py (environ_get environ (lit "CLAUDE_NOOK_PORT") (lit "4851")),
        py_int py (environ_get environ (lit "CLAUDE_NOOK_TIMEOUT") (lit "300"))
  with
  | Some p, Some t =>
      Some {| socket_path := lit "/tmp/claude-nook.sock";
              host := environ_get environ (lit "CLAUDE_NOOK_HOST") [];
              port := p;
              token := environ_get environ (lit "CLAUDE_NOOK_TOKEN") [];
              mode := environ_get environ (lit "CLAUDE_NOOK_MODE") (lit "auto");
              timeout := t;
              debug := str_eqb (environ_get environ (lit "CLAUDE_NOOK_DEBUG")
                                            (lit "0")) (lit "1");
              _discovered_host := None;
              _discovery_attempted := false |}
  | _, _ => None
  end.

(** [discover_via_bonjour(timeout)] *)
Definition discover_via_bonjour (seconds : Z) : Py (option str * option Z) :=
  try_except
    (_ <- subprocess_run env
            [lit "dns-sd"; lit "-B"; lit "_claudenook._tcp"; lit "local."]
            seconds ;;
     ret tt)
    (fun e => if is_TimeoutExpired e || is_FileNotFoundError e
              then Some (ret tt) else None) ;;
  ret (None, None).

(** [ConnectionConfig.get_host] *)
Definition get_host : Py str :=
  c <- get_config ;;
  if nonempty (host c) then ret (host c)
  else
    (if negb (_discovery_attempted c) then
       set_config (with_discovery_attempted c true) ;;
       found <- discover_via_bonjour 2 ;;
       let '(discovered_host, discovered_port) := found in
       match discovered_host with
       | Some h =>
           if nonempty h then
             c <- get_config ;;
             set_config (with_discovered_host c (Some h)) ;;
             match discovered_port with
             | Some p =>
                 if negb (p =? 0)%Z then
                   c <- get_config ;;
                   set_config (with_port c p)
                 else ret tt
             | None => ret tt
             end
           else ret tt
       | None => ret tt
       end
     else ret tt) ;;
    c <- get_config ;;
    ret (match _discovered_host c with
         | Some h => if nonempty h then h else lit "127.0.0.1"
         | None => lit "127.0.0.1"
         end).

(** [send_via_tcp(state, wait_for_response)] *)
Definition send_via_tcp (fuel : nat) (state : dict)
           (wait_for_response : bool) : Py value :=
  host <- get_host ;;
  try_except
    (c <- get_config ;;
     s <- socket_socket env AF_INET ;;
     settimeout s (inject_Z (timeout c)) ;;
     connect env s (InetAddr host (port c)) ;;
     settimeout s (1 # 2) ;;
     auto_trusted <-
       try_except
         (initial_response <- recv env s 64 ;;
          if nonempty initial_response then
            text <- or_raise (bytes_decode initial_response)
                             UnicodeDecodeError ;;
            ret (str_eqb (strip text) (lit "OK"))
          else ret false)
         (fun e => if is_TimeoutError e then Some (ret false) else None) ;;
     settimeout s (inject_Z (timeout c)) ;;
     if negb auto_trusted then
       if negb (nonempty (token c)) then
         close s ;;
         ret VNone
       else authenticate py env fuel s state wait_for_response
     else send_payload py env s state wait_for_response)
    except_tcp.

(** The end of the automatic branch of [send_event], from
    [host = config.get_host()]; the local variable [result] is [None] here
    when no assignment to it was executed. *)
Definition remote_fallback (fuel : nat) (state : dict)
           (wait_for_response : bool) (result : option value) : Py value :=
  host <- get_host ;;
  c <- get_config ;;
  if nonempty host && (nonempty (token c) || is_tailscale_ip host) then
    send_via_tcp fuel state wait_for_response
  else or_raise result UnboundLocalError.

(** [send_event(state, wait_for_response)] *)
Definition send_event (fuel : nat) (state : dict) (wait_for_response : bool)
  : Py value :=
  c <- get_config ;;
  if str_eqb (mode c) (lit "socket") then
    send_via_socket py env state wait_for_response
  else if str_eqb (mode c) (lit "tcp") then
    send_via_tcp fuel state wait_for_response
  else
    found <- path_exists env (socket_path c) ;;
    if found then
      result <- send_via_socket py env state wait_for_response ;;
      if negb (is_None result) || negb wait_for_response then ret result
      else remote_fallback fuel state wait_for_response (Some result)
    else remote_fallback fuel state wait_for_response None.

(** [main()] *)
Definition main (fuel : nat) (stdin : str) : Py unit :=
  hook_main py env (send_event fuel)
                 (lit "Denied by user via Claude Nook") stdin.
End Hook.

End Nook.

(** ** [claude-island-state.py] *)

Module Island.

Section Hook.
Variable py : runtime.
Variable env : environment.

(** [ConnectionConfig()]; [None] stands for the [ValueError] of [int]. *)
Definition ConnectionConfig_init (environ : list (str * str))
  : option ConnectionConfig :=
  match py_int py (environ_get environ (lit "CLAUDE_ISLAND_PORT")
                               (lit "4851")),
        py_int py (environ_get environ (lit "CLAUDE_ISLAND_TIMEOUT")
                               (lit "300"))
  with
  | Some p, Some t =>
      Some {| socket_path := lit "/tmp/claude-island.sock";
              host := environ_get environ (lit "CLAUDE_ISLAND_HOST")
                                  (lit "127.0.0.1");
              port := p;
              token := environ_get environ (lit "CLAUDE_ISLAND_TOKEN") [];
              mode := environ_get environ (lit "CLAUDE_ISLAND_MODE")
                                  (lit "auto");
              timeout := t;
              debug := str_eqb (environ_get environ (lit "CLAUDE_ISLAND_DEBUG")
                                            (lit "0")) (lit "1");
              _discovered_host := None;
              _discovery_attempted := false |}
  | _, _ => None
  end.

(** [send_via_tcp(state, wait_for_response)] *)
Definition send_via_tcp (fuel : nat) (state : dict)
           (wait_for_response : bool) : Py value :=
  c <- get_config ;;
  if negb (nonempty (token c)) then ret VNone
  else
    try_except
      (c <- get_config ;;
       s <- socket_socket env AF_INET ;;
       settimeout s (inject_Z (timeout c)) ;;
       connect env s (InetAddr (host c) (port c)) ;;
       authenticate py env fuel s state wait_for_response)
      except_tcp.

(** [send_event(state, wait_for_response)] *)
Definition send_event (fuel : nat) (state : dict) (wait_for_response : bool)
  : Py value :=
  c <- get_config ;;
  if str_eqb (mode c) (lit "socket") then
    send_via_socket py env state wait_for_response
  else if str_eqb (mode c) (lit "tcp") then
    send_via_tcp fuel state wait_for_response
  else
    result <- send_via_socket py env state wait_for_response ;;
    c <- get_config ;;
    if nonempty (token c) then
      found <- path_exists env (socket_path c) ;;
      if negb found then send_via_tcp fuel state wait_for_response
      else ret result
    else ret result.

(** [main()] *)
Definition main (fuel : nat) (stdin : str) : Py unit :=
  hook_main py env (send_event fuel)
                 (lit "Denied by user via ClaudeIsland") stdin.
End Hook.

End Island.

(** ** A runtime and environments for examples

    The general properties below quantify over the runtime and the
    environment; these instances are for running the hooks on concrete
    inputs. *)

Module Example.

(** *** [json.dumps] with its default settings *)

Definition hex_digit (n : N) : N := if n <? 10 then 48 + n else 87 + n.

Definition u_escape (c : N) : str :=
  [92; 117; hex_digit (c / 4096 mod 16); hex_digit (c / 256 mod 16);
   hex_digit (c / 16 mod 16); hex_digit (c mod 16)].

Definition escape_char (c : N) : str :=
  if c =? 34 then [92; 34]
  else if c =? 92 then [92; 92]
  else if c =? 10 then [92; 110]
  else if c =? 13 then [92; 114]
  else if c =? 9 then [92; 116]
  else if c =? 8 then [92; 98]
  else if c =? 12 then [92; 102]
  else if (32 <=? c) && (c <=? 126) then [c]
  else if c <? 0x10000 then u_escape c
  else u_escape (0xD800 + (c - 0x10000) / 1024)
       ++ u_escape (0xDC00 + (c - 0x10000) mod 1024).

Definition dumps_str (s : str) : str := 34 :: flat_map escape_char s ++ [34].

Definition dumps_float (repr : str) : str :=
  if str_eqb repr (lit "nan") then lit "NaN"
  else if str_eqb repr (lit "inf") then lit "Infinity"
  else if str_eqb repr (lit "-inf") then lit "-Infinity"
  else repr.

Fixpoint dumps (v : value) : str :=
  match v with
  | VNone => lit "null"
  | VBool true => lit "true"
  | VBool false => lit "false"
  | VInt z => str_of_Z z
  | VFloat repr => dumps_float repr
  | VStr s => dumps_str s
  | VList l =>
      91 :: (fix items (l : list value) : str :=
               match l with
               | [] => []
               | x :: rest =>
                   dumps x ++ match rest with
                              | [] => []
                              | _ :: _ => lit ", " ++ items rest
                              end
               end) l ++ [93]
  | VDict d =>
      123 :: (fix members (d : list (str * value)) : str :=
                match d with
                | [] => []
                | (k, x) :: rest =>
                    dumps_str k ++ lit ": " ++ dumps x
                    ++ match rest with
                       | [] => []
                       | _ :: _ => lit ", " ++ members rest
                       end
                end) d ++ [125]
  end.

(** *** [json.loads] on documents without floating-point numbers

    A number with a fraction or an exponent is not decoded here. *)

Fixpoint skip_ws (s : str) : str :=
  match s with
  | c :: t =>
      if (c =? 32) || (c =? 9) || (c =? 10) || (c =? 13) then skip_ws t
      else s
  | [] => []
  end.

Definition hex_value (c : N) : option N :=
  if (48 <=? c) && (c <=? 57) then Some (c - 48)
  else if (97 <=? c) && (c <=? 102) then Some (c - 87)
  else if (65 <=? c) && (c <=? 70) then Some (c - 55)
  else None.

(** The four hexadecimal digits after a backslash and a [u]. *)
Definition read_u (s : str) : option (N * str) :=
  match s with
  | a :: b :: c :: d :: rest =>
      match hex_value a, hex_value b, hex_value c, hex_value d with
      | Some a, Some b, Some c, Some d =>
          Some (a * 4096 + b * 256 + c * 16 + d, rest)
      | _, _, _, _ => None
      end
  | _ => None
  end.

(** The text of a string after its opening quote, and what follows its
    closing quote. *)
Fixpoint scan_string (fuel : nat) (s : str) : option (str * str) :=
  match fuel with
  | O => None
  | S fuel' =>
      let continue (c : N) (rest : str) :=
        match scan_string fuel' rest with
        | Some (t, rest') => Some (c :: t, rest')
        | None => None
        end in
      match s with
      | [] => None
      | 34 :: rest => Some ([], rest)
      | 92 :: [] => None
      | 92 :: e :: rest =>
          if e =? 34 then continue 34 rest
          else if e =? 92 then continue 92 rest
          else if e =? 47 then continue 47 rest
          else if e =? 98 then continue 8 rest
          else if e =? 102 then continue 12 rest
          else if e =? 110 then continue 10 rest
          else if e =? 114 then continue 13 rest
          else if e =? 116 then continue 9 rest
          else if e =? 117 then
            match read_u rest with
            | None => None
            | Some (hi, rest1) =>
                let low :=
                  match rest1 with
                  | 92 :: 117 :: rest2 =>
                      match read_u rest2 with
                      | Some (lo, rest3) =>
                          if (0xDC00 <=? lo) && (lo <=? 0xDFFF)
                          then Some (lo, rest3) else None
                      | None => None
                      end
                  | _ => None
                  end in
                match (0xD800 <=? hi) && (hi <=? 0xDBFF), low with
                | true, Some (lo, rest3) =>
                    continue (0x10000 + (hi - 0xD800) * 1024 + (lo - 0xDC00))
                             rest3
                | _, _ => continue hi rest1
                end
            end
          else None
      | c :: rest => if c <? 32 then None else continue c rest
      end
  end.

Fixpoint scan_number (s : str) (acc : N) : N * str :=
  match s with
  | c :: t =>
      if (48 <=? c) && (c <=? 57) then scan_number t (10 * acc + (c - 48))
      else (acc, s)
  | [] => (acc, [])
  end.

Definition starts_float (s : str) : bool :=
  match s with
  | 46 :: d :: _ => (48 <=? d) && (d <=? 57)
  | e :: d :: rest =>
      ((e =? 101) || (e =? 69))
      && (((48 <=? d) && (d <=? 57))
          || (((d =? 43) || (d =? 45))
              && match rest with
                 | d' :: _ => (48 <=? d') && (d' <=? 57)
                 | [] => false
                 end))
  | _ => false
  end.

(** An integer: an optional minus sign, then a zero or digits that do not
    start with one. *)
Definition parse_number (s : str) : option (value * str) :=
  let '(negative, digits) :=
    match s with 45 :: t => (true, t) | _ => (false, s) end in
  match digits with
  | 48 :: rest =>
      if starts_float rest then None else Some (VInt 0, rest)
  | c :: _ =>
      if (49 <=? c) && (c <=? 57) then
        let '(n, rest) := scan_number digits 0 in
        if starts_float rest then None
        else Some (VInt (if negative then - Z.of_N n else Z.of_N n)%Z, rest)
      else None
  | [] => None
  end.

Fixpoint parse_value (fuel : nat) (s : str) : option (value * str) :=
  match fuel with
  | O => None
  | S fuel' =>
      match s with
      | 110 :: 117 :: 108 :: 108 :: rest => Some (VNone, rest)
      | 116 :: 114 :: 117 :: 101 :: rest => Some (VBool true, rest)
      | 102 :: 97 :: 108 :: 115 :: 101 :: rest => Some (VBool false, rest)
      | 78 :: 97 :: 78 :: rest => Some (VFloat (lit "nan"), rest)
      | 73 :: 110 :: 102 :: 105 :: 110 :: 105 :: 116 :: 121 :: rest =>
          Some (VFloat (lit "inf"), rest)
      | 45 :: 73 :: 110 :: 102 :: 105 :: 110 :: 105 :: 116 :: 121 :: rest =>
          Some (VFloat (lit "-inf"), rest)
      | 34 :: rest =>
          match scan_string fuel' rest with
          | Some (t, rest') => Some (VStr t, rest')
          | None => None
          end
      | 91 :: rest =>
          match skip_ws rest with
          | 93 :: rest' => Some (VList [], rest')
          | first => parse_items fuel' first []
          end
      | 123 :: rest =>
          match skip_ws rest with
          | 125 :: rest' => Some (VDict [], rest')
          | first => parse_members fuel' first []
          end
      | _ => parse_number s
      end
  end

with parse_items (fuel : nat) (s : str) (acc : list value)
  : option (value * str) :=
  match fuel with
  | O => None
  | S fuel' =>
      match parse_value fuel' s with
      | None => None
      | Some (v, rest) =>
          match skip_ws rest with
          | 44 :: rest' => parse_items fuel' (skip_ws rest') (acc ++ [v])
          | 93 :: rest' => Some (VList (acc ++ [v]), rest')
          | _ => None
          end
      end
  end

with parse_members (fuel : nat) (s : str) (acc : dict)
  : option (value * str) :=
  match fuel with
  | O => None
  | S fuel' =>
      match s with
      | 34 :: rest =>
          match scan_string fuel' rest with
          | None => None
          | Some (key, rest1) =>
              match skip_ws rest1 with
              | 58 :: rest2 =>
                  match parse_value fuel' (skip_ws rest2) with
                  | None => None
                  | Some (v, rest3) =>
                      match skip_ws rest3 with
                      | 44 :: rest4 =>
                          parse_members fuel' (skip_ws rest4)
                                        (dict_set acc key v)
                      | 125 :: rest4 => Some (VDict (dict_set acc key v), rest4)
                      | _ => None
                      end
                  end
              | _ => None
              end
          end
      | _ => None
      end
  end.

Definition loads (s : str) : exn + value :=
  match parse_value (S (length s)) (skip_ws s) with
  | Some (v, rest) =>
      match skip_ws rest with
      | [] => inr v
      | _ :: _ => inl JSONDecodeError
      end
  | None => inl JSONDecodeError
  end.

Definition runtime : runtime :=
  {| unicode_decimal := fun _ => None;
     int_max_str_digits := 4300;
     json_loads := loads;
     json_dumps := fun v => map byte_of (dumps v) |}.

(** *** Scripted environments

    The answer to a call is read off a script at the position the call takes
    in the trace; a call that finds no answer of its kind there succeeds, a
    [recv] with no bytes, [os.path.exists] with [False], the child process
    with no output, the parent process as 1. *)

Inductive answer :=
| Succeeds
| Fails (e : exn)
| Bytes (b : bytes)
| Text (s : str)
| Truth (b : bool)
| Number (z : Z).

Definition failure (script : list answer) (h : list event) : option exn :=
  match nth_error script (length h) with
  | Some (Fails e) => Some e
  | _ => None
  end.

Definition scripted (script : list answer) : environment :=
  {| os_socket := fun h _ => failure script h;
     os_connect := fun h _ _ => failure script h;
     os_sendall := fun h _ _ => failure script h;
     os_recv := fun h _ _ =>
       match nth_error script (length h) with
       | Some (Fails e) => inl e
       | Some (Bytes b) => inr b
       | _ => inr []
       end;
     os_path_exists := fun h _ =>
       match nth_error script (length h) with
       | Some (Truth b) => b
       | _ => false
       end;
     os_run := fun h _ _ =>
       match nth_error script (length h) with
       | Some (Fails e) => inl e
       | Some (Text s) => inr s
       | _ => inr []
       end;
     os_getppid := fun h =>
       match nth_error script (length h) with
       | Some (Number z) => z
       | _ => 1%Z
       end;
     os_ttyname := fun h _ =>
       match nth_error script (length h) with
       | Some (Fails e) => inl e
       | Some (Text s) => inr s
       | _ => inr []
       end |}.

(** The configuration a fresh process builds from its environment
    variables. *)
Definition nook_config (environ : list (string * string)) : ConnectionConfig :=
  match Nook.ConnectionConfig_init runtime
          (map (fun kv => (lit (fst kv), lit (snd kv))) environ) with
  | Some c => c
  | None => Build_ConnectionConfig [] [] 0 [] [] 0 false None false
  end.

Definition island_config (environ : list (string * string))
  : ConnectionConfig :=
  match Island.ConnectionConfig_init runtime
          (map (fun kv => (lit (fst kv), lit (snd kv))) environ) with
  | Some c => c
  | None => Build_ConnectionConfig [] [] 0 [] [] 0 false None false
  end.

(** A process that has made no call yet. *)
Definition fresh (c : ConnectionConfig) : world ConnectionConfig := World c [].

(** The reply [{"decision": "allow"}] and the like, written without
    quotation marks in the source of this file: an apostrophe stands for
    one. *)
Definition quoted (s : string) : bytes :=
  map (fun b => if Byte.eqb b "'"%byte then x22 else b) (blit s).

End Example.

(** ** What the properties speak of *)

(** *** Observations on a trace *)

(** The data of the [sendall] calls, in order. *)
Definition sent (tr : list event) : list bytes :=
  flat_map (fun e => match e with EvSendAll _ data _ => [data] | _ => [] end)
           tr.

(** What the first [recv] brought; in [send_via_tcp] of the nook hook that
    is the probe for a greeting. *)
Fixpoint first_recv (tr : list event) : option (exn + bytes) :=
  match tr with
  | [] => None
  | EvRecv _ _ r :: _ => Some r
  | _ :: rest => first_recv rest
  end.

(** The probe read an OK greeting. *)
Definition greeting_ok (g : exn + bytes) : bool :=
  match g with
  | inr b =>
      match bytes_decode b with
      | Some text => str_eqb (strip text) (lit "OK")
      | None => false
      end
  | inl _ => false
  end.

(** The probe timed out, or read nothing, or read text other than OK. *)
Definition probe_silent (g : exn + bytes) : bool :=
  match g with
  | inl e => is_TimeoutError e
  | inr b =>
      match bytes_decode b with
      | Some text => negb (str_eqb (strip text) (lit "OK"))
      | None => false
      end
  end.

(** The bytes read in chunks of at most 64, in order: within the
    authentication exchange, the buffer [auth_response]. *)
Definition chunks (tr : list event) : bytes :=
  flat_map (fun e => match e with EvRecv _ 64 (inr b) => b | _ => [] end) tr.

(** The socket [s] was created in the trace: a socket is named by the
    position of the call that created it. *)
Definition created (s : sock) (tr : list event) : bool :=
  match nth_error tr s with
  | Some (EvSocket _ None) => true
  | _ => false
  end.

(** [s.close()] was called in the trace. That is not the only way a socket
    gets closed: see [open_at_exit]. *)
Definition close_called (s : sock) (tr : list event) : bool :=
  existsb (fun e => match e with EvClose s' => Nat.eqb s' s | _ => false end)
          tr.

(** The socket [s], which a transport holds in a local variable and nowhere
    else, is still open when the transport is left with the outcome [r]
    after the calls [tr]. The interpreter counts references. When the
    function returns, its frame dies and the socket object with it, and the
    finaliser of a socket object that dies unclosed closes its descriptor:
    a transport that returns leaves no socket open, whether or not it
    called [close]. When an exception leaves the function, the traceback of
    the exception keeps the frame, and so the socket, alive: the socket is
    open unless [close] was called. *)
Definition open_at_exit {A : Type} (s : sock) (r : outcome A)
           (tr : list event) : bool :=
  created s tr
  && match r with
     | Return _ => false
     | Raise _ | OutOfFuel => negb (close_called s tr)
     end.

(** No call in the trace failed. *)
Definition no_failure (tr : list event) : bool :=
  forallb (fun e => match e with
                    | EvSocket _ (Some _) | EvConnect _ _ (Some _)
                    | EvSendAll _ _ (Some _) | EvRecv _ _ (inl _) => false
                    | _ => true
                    end) tr.

(** What was printed on the standard output, in order. *)
Definition prints (tr : list event) : list bytes :=
  flat_map (fun e => match e with EvPrint text => [text] | _ => [] end) tr.

(** *** Discovery *)

Definition dns_sd_argv : list str :=
  [lit "dns-sd"; lit "-B"; lit "_claudenook._tcp"; lit "local."].

(** The calls of the discovery command in a trace. *)
Definition is_discovery (e : event) : bool :=
  match e with
  | EvRun (command :: _) _ _ => str_eqb command (lit "dns-sd")
  | _ => false
  end.

Definition discovery_attempts (tr : list event) : nat :=
  length (filter is_discovery tr).

(** The discovery command, if it is run now, ends in one of the ways
    [discover_via_bonjour] expects. *)
Definition discovery_expected (env : environment) (tr : list event) : Prop :=
  forall e, os_run env tr dns_sd_argv 2 = inl e ->
            is_TimeoutExpired e || is_FileNotFoundError e = true.

(** *** Addresses *)

(** A field of an address: a text without a dot. *)
Definition dot_free (s : str) : bool := forallb (fun c => negb (c =? 46)) s.

(** *** Configurations and peers of the examples *)

(** The configuration of a process started with none of the variables
    set: automatic mode, no host, no secret. *)
Definition default_config : ConnectionConfig := Example.nook_config [].

(** The local-only configuration. *)
Definition socket_config : ConnectionConfig :=
  Example.nook_config [("CLAUDE_NOOK_MODE", "socket")]%string.

(** The remote-only configuration with no secret and a host outside the
    overlay range. *)
Definition tcp_config : ConnectionConfig :=
  Example.nook_config
    [("CLAUDE_NOOK_MODE", "tcp"); ("CLAUDE_NOOK_HOST", "10.0.0.1")]%string.

(** The same with a secret. *)
Definition secret_config : ConnectionConfig :=
  Example.nook_config
    [("CLAUDE_NOOK_MODE", "tcp"); ("CLAUDE_NOOK_HOST", "10.0.0.1");
     ("CLAUDE_NOOK_TOKEN", "s3cret")]%string.

(** A remote-only configuration of the island hook with a secret. *)
Definition island_tcp_config : ConnectionConfig :=
  Example.island_config
    [("CLAUDE_ISLAND_MODE", "tcp"); ("CLAUDE_ISLAND_TOKEN", "s3cret")]%string.

(** A machine on which the companion application does not run: the socket
    path does not exist and there is no discovery command. *)
Definition nothing_there : environment :=
  Example.scripted [Example.Truth false; Example.Fails FileNotFoundError].

(** The same for the island hook, whose automatic mode starts with the
    local connection. *)
Definition island_nothing_there : environment :=
  Example.scripted
    [Example.Succeeds; Example.Succeeds; Example.Fails FileNotFoundError;
     Example.Truth false].

(** A peer that accepts the connection, and the payload of a local one, and
    then stays silent. *)
Definition silent_peer : environment :=
  Example.scripted
    [Example.Succeeds; Example.Succeeds; Example.Succeeds; Example.Succeeds;
     Example.Fails TimeoutError].

(** A peer that greets with OK as soon as the connection is made and sends
    nothing else. *)
Definition greeting_peer : environment :=
  Example.scripted
    [Example.Succeeds; Example.Succeeds; Example.Succeeds; Example.Succeeds;
     Example.Bytes (blit "OK" ++ [x0a])].

(** A peer that does not greet and answers the AUTH line with a byte that
    is not UTF-8, then a newline. *)
Definition garbled_auth_peer : environment :=
  Example.scripted
    [Example.Succeeds; Example.Succeeds; Example.Succeeds; Example.Succeeds;
     Example.Fails TimeoutError; Example.Succeeds; Example.Succeeds;
     Example.Bytes [xff; x0a]].

(** A peer that does not greet and never answers the AUTH line. *)
Definition mute_auth_peer : environment :=
  Example.scripted
    [Example.Succeeds; Example.Succeeds; Example.Succeeds; Example.Succeeds;
     Example.Fails TimeoutError; Example.Succeeds; Example.Succeeds;
     Example.Fails TimeoutError].

(** A companion application that takes the payload on the local socket and
    answers with [reply]. *)
Definition replying (reply : bytes) : environment :=
  Example.scripted
    [Example.Succeeds; Example.Succeeds; Example.Succeeds; Example.Succeeds;
     Example.Bytes reply].

(** A permission request on the standard input. *)
Definition permission_request_stdin : str :=
  match bytes_decode
          (Example.quoted
             "{'session_id': 's1', 'hook_event_name': 'PermissionRequest', 'tool_name': 'Bash'}")
  with
  | Some text => text
  | None => []
  end.

(** A companion application that answers a permission request of [main]
    with [reply]: the identity of the parent twice, no [ps], no terminal,
    then the local connection. *)
Definition deciding (reply : bytes) : environment :=
  Example.scripted
    [Example.Number 7; Example.Number 7; Example.Fails FileNotFoundError;
     Example.Fails OSError; Example.Fails OSError;
     Example.Succeeds; Example.Succeeds; Example.Succeeds; Example.Succeeds;
     Example.Bytes reply].

(** A peer that greets with OK, takes the payload and replies with
    [reply]. *)
Definition greeting_and_replying (reply : bytes) : environment :=
  Example.scripted
    [Example.Succeeds; Example.Succeeds; Example.Succeeds; Example.Succeeds;
     Example.Bytes (blit "OK" ++ [x0a]); Example.Succeeds; Example.Succeeds;
     Example.Bytes reply].

(** ** What the further properties speak of *)

(** A call on an Internet socket: creating one, or connecting to a host and
    a port. A run of the discovery command, which browses the local
    network, is not counted here: see [is_discovery]. *)
Definition is_network (e : event) : bool :=
  match e with
  | EvSocket AF_INET _ | EvConnect _ (InetAddr _ _) _ => true
  | _ => false
  end.

(** A call of the local transport: on the one socket [s], to the one
    address [path], with the one message [payload], reading at most 4096
    bytes. *)
Definition local_event (s : sock) (path : str) (payload : bytes) (e : event)
  : Prop :=
  match e with
  | EvSocket AF_UNIX _ => True
  | EvSetTimeout s' _ => s' = s
  | EvConnect s' (UnixPath p) _ => s' = s /\ p = path
  | EvSendAll s' data _ => s' = s /\ data = payload
  | EvRecv s' bufsize _ => s' = s /\ bufsize = 4096%nat
  | EvClose s' => s' = s
  | _ => False
  end.

(** An exception that the [except] clauses of the transports catch. *)
Definition caught (e : exn) : bool := is_OSError e || is_JSONDecodeError e.

(** The host [get_host] settles on, as the configuration stands: the
    configured one, or else the discovered one, or else the loopback
    address. *)
Definition resolved (c : ConnectionConfig) : str :=
  if nonempty (host c) then host c
  else match _discovered_host c with
       | Some h => if nonempty h then h else lit "127.0.0.1"
       | None => lit "127.0.0.1"
       end.

(** A configuration with a negative time-out, which [int] accepts. *)
Definition negative_timeout_config : ConnectionConfig :=
  Example.nook_config
    [("CLAUDE_NOOK_MODE", "socket"); ("CLAUDE_NOOK_TIMEOUT", "-5")]%string.

(** A machine on which every call succeeds and nothing is ever read. *)
Definition obliging : environment := Example.scripted [].

(** The command [get_tty] runs for the parent process [ppid]. *)
Definition ps_argv (ppid : Z) : list str :=
  [lit "ps"; lit "-p"; str_of_Z ppid; lit "-o"; lit "tty="].

(** An exception that the fallbacks of [get_tty] catch. *)
Definition no_terminal (e : exn) : bool := is_OSError e || is_AttributeError e.

(** *** What [main] hands over *)

(** [d.get(k, default)] on a dictionary. *)
Definition dict_get_or (d : dict) (k : str) (default : value) : value :=
  match dict_get d k with Some x => x | None => default end.

(** The last line of [main]: [send_event(state)], whose result is
    dropped. *)
Definition fire_and_forget (send_event : dict -> bool -> Py value)
           (state : dict) : Py unit :=
  bind (send_event state false) (fun _ => ret tt).

(** The five entries every [state] starts with. *)
Definition base_state (d : dict) (pid : Z) (tty : value) : dict :=
  [(lit "session_id", dict_get_or d (lit "session_id") (VStr (lit "unknown")));
   (lit "cwd", dict_get_or d (lit "cwd") (VStr []));
   (lit "event", dict_get_or d (lit "hook_event_name") (VStr []));
   (lit "pid", VInt pid);
   (lit "tty", tty)].

(** The status [main] gives to an event. *)
Definition status_of (event notification_type : value) : string :=
  if is_str event (lit "UserPromptSubmit") then "processing"
  else if is_str event (lit "PreToolUse") then "running_tool"
  else if is_str event (lit "PostToolUse") then "processing"
  else if is_str event (lit "PermissionRequest") then "waiting_for_approval"
  else if is_str event (lit "Notification") then
    if is_str notification_type (lit "idle_prompt")
    then "waiting_for_input" else "notification"
  else if is_str event (lit "Stop") then "waiting_for_input"
  else if is_str event (lit "SubagentStop") then "waiting_for_input"
  else if is_str event (lit "SessionStart") then "waiting_for_input"
  else if is_str event (lit "SessionEnd") then "ended"
  else if is_str event (lit "PreCompact") then "compacting"
  else "unknown".

(** The event carries a tool, and possibly the identifier of its use. *)
Definition tool_event (event : value) : bool :=
  is_str event (lit "PreToolUse") || is_str event (lit "PostToolUse").

(** A notification that a permission prompt is shown. *)
Definition permission_prompt (d : dict) : bool :=
  is_str (dict_get_or d (lit "hook_event_name") (VStr [])) (lit "Notification")
  && is_str (dict_get_or d (lit "notification_type") VNone)
            (lit "permission_prompt").

(** A text on the standard input that is not JSON, one that is JSON but no
    object, and a notification of a permission prompt. *)
Definition not_json_stdin : str := lit "{".

Definition array_stdin : str := lit "[1]".

Definition permission_prompt_stdin : str :=
  match bytes_decode
          (Example.quoted
             "{'hook_event_name': 'Notification', 'notification_type': 'permission_prompt'}")
  with
  | Some text => text
  | None => []
  end.

(** A tool about to be used. *)
Definition pre_tool_use_stdin : str :=
  match bytes_decode
          (Example.quoted
             "{'session_id': 's1', 'hook_event_name': 'PreToolUse', 'tool_name': 'Bash', 'tool_use_id': 'u1'}")
  with
  | Some text => text
  | None => []
  end.

(** A machine with no [ps] and no terminal, whose parent is process 7. *)
Definition no_terminal_there : environment :=
  Example.scripted
    [Example.Number 7; Example.Number 7; Example.Fails FileNotFoundError;
     Example.Fails OSError; Example.Fails OSError].

(** *** The remote transport *)

(** A call on the connection of the remote transport: on the one socket
    [s], and connecting to the one address [host], [port]. *)
Definition remote_event (s : sock) (host : str) (port : Z) (e : event)
  : Prop :=
  match e with
  | EvSetTimeout s' _ => s' = s
  | EvConnect s' a _ => s' = s /\ a = InetAddr host port
  | EvSendAll s' _ _ => s' = s
  | EvRecv s' _ _ => s' = s
  | EvClose s' => s' = s
  | _ => False
  end.

(** What the remote transport may send, given the AUTH line of the
    configuration (if the secret can be encoded) and the payload: nothing,
    the payload, the line, or the line and then the payload. The line
    requires a secret. *)
Definition remote_traffic (c : ConnectionConfig) (payload : bytes)
           (out : list bytes) : Prop :=
  out = []
  \/ out = [payload]
  \/ exists line,
      str_encode (lit "AUTH " ++ token c ++ [10]) = Some line
      /\ (out = [line] \/ out = [line; payload]).

(** A peer that never stops sending and never sends a newline. *)
Definition chatty_peer : environment :=
  {| os_socket := os_socket obliging;
     os_connect := os_connect obliging;
     os_sendall := os_sendall obliging;
     os_recv := fun _ _ _ => inr [x41];
     os_path_exists := os_path_exists obliging;
     os_run := os_run obliging;
     os_getppid := os_getppid obliging;
     os_ttyname := os_ttyname obliging |}.

(** A call of the exchange on an established connection: sending,
    receiving or closing on the socket [s], and nothing else. *)
Definition exchange_event (s : sock) (e : event) : Prop :=
  match e with
  | EvSendAll s' _ _ => s' = s
  | EvRecv s' _ _ => s' = s
  | EvClose s' => s' = s
  | _ => False
  end.

(** A configuration with a time-out of more seconds than a socket takes. *)
Definition overlong_timeout_config : ConnectionConfig :=
  Example.nook_config
    [("CLAUDE_NOOK_MODE", "socket");
     ("CLAUDE_NOOK_TIMEOUT", "9223372037")]%string.

(** What [ps] gave names a terminal: its output, trimmed, is not empty
    and is neither [??] nor [-]. *)
Definition ps_names_terminal (x : exn + str) : bool :=
  match x with
  | inr out =>
      nonempty (strip out) && negb (str_eqb (strip out) (lit "??"))
      && negb (str_eqb (strip out) (lit "-"))
  | inl _ => false
  end.

(** * Properties *)

(** ** Running the hooks in a proof

    [unfold_py] and [unfold_sys] open the combinators and the system calls;
    [step] decides the next answer of the environment, or the next test, and
    runs on. *)

Ltac unfold_py :=
  unfold Py, try_except, bind, ret, raise, out_of_fuel, or_raise, get_config,
    set_config, emit, history, sys_exit in *.

Ltac unfold_sys :=
  unfold socket_socket, settimeout, connect, sendall, recv, close,
    path_exists, print in *.

#[local] Arguments firstn : simpl never.
#[local] Arguments strip : simpl never.
#[local] Arguments bytes_decode : simpl never.

Ltac run_cbn :=
  cbn -[lit str_eqb inject_Z Qnum timeout_overflows authenticate send_payload
        read_auth_response].

Ltac step :=
  match goal with
  | |- context [match os_socket ?e ?h ?f with _ => _ end] =>
      destruct (os_socket e h f) eqn:?
  | |- context [match os_connect ?e ?h ?s ?a with _ => _ end] =>
      destruct (os_connect e h s a) eqn:?
  | |- context [match os_recv ?e ?h ?s ?n with _ => _ end] =>
      destruct (os_recv e h s n) eqn:?
  | |- context [match os_sendall ?e ?h ?s ?d with _ => _ end] =>
      destruct (os_sendall e h s d) eqn:?
  | |- context [match bytes_decode ?b with _ => _ end] =>
      destruct (bytes_decode b) eqn:?
  | |- context [if ?b then _ else _] => destruct b eqn:?
  end; run_cbn.

(** ** The address classifier *)

Lemma str_split_nonempty (sep : N) (s : str) : str_split sep s <> [].
Proof.
  destruct s as [|c t]; simpl; [discriminate|].
  destruct (c =? sep); [discriminate|].
  destruct (str_split sep t); discriminate.
Qed.

Lemma str_split_dot_free (s : str) :
  dot_free s = true -> str_split 46 s = [s].
Proof.
  induction s as [|c t IH]; simpl; intros H; [reflexivity|].
  apply andb_true_iff in H as [Hc Ht].
  apply negb_true_iff in Hc. rewrite Hc, (IH Ht). reflexivity.
Qed.

Lemma str_split_field (p rest : str) :
  dot_free p = true ->
  str_split 46 (p ++ 46 :: rest) = p :: str_split 46 rest.
Proof.
  induction p as [|c t IH]; simpl; intros H; [reflexivity|].
  apply andb_true_iff in H as [Hc Ht].
  apply negb_true_iff in Hc. rewrite Hc, (IH Ht). reflexivity.
Qed.

Lemma str_split_four (p0 p1 p2 p3 : str) :
  dot_free p0 = true -> dot_free p1 = true ->
  dot_free p2 = true -> dot_free p3 = true ->
  str_split 46 (p0 ++ 46 :: p1 ++ 46 :: p2 ++ 46 :: p3) = [p0; p1; p2; p3].
Proof.
  intros H0 H1 H2 H3.
  now rewrite !str_split_field, str_split_dot_free.
Qed.

Lemma is_tailscale_ip_fields (py : runtime) (ip p0 p1 p2 p3 : str) :
  str_split 46 ip = [p0; p1; p2; p3] ->
  Nook.is_tailscale_ip py ip =
  match py_int py p0, py_int py p1 with
  | Some first, Some second =>
      (first =? 100)%Z && ((64 <=? second)%Z && (second <=? 127)%Z)
  | _, _ => false
  end.
Proof.
  intros Hs. unfold Nook.is_tailscale_ip. rewrite Hs. simpl.
  destruct (py_int py p0); [|reflexivity].
  destruct (py_int py p1); reflexivity.
Qed.

(** C8. The classifier answers [True] exactly for the texts that split at the
    dots into four fields of which the first reads as 100 and the second as
    an integer from 64 to 127; the eight addresses of the specification are
    classified as it says. *)
Theorem is_tailscale_ip_classification (py : runtime) :
  (forall ip,
      Nook.is_tailscale_ip py ip = true <->
      exists p0 p1 p2 p3 second,
        str_split 46 ip = [p0; p1; p2; p3]
        /\ py_int py p0 = Some 100%Z
        /\ py_int py p1 = Some second
        /\ (64 <= second <= 127)%Z)
  /\ Nook.is_tailscale_ip py (lit "100.64.0.1") = true
  /\ Nook.is_tailscale_ip py (lit "100.100.100.100") = true
  /\ Nook.is_tailscale_ip py (lit "100.127.255.255") = true
  /\ Nook.is_tailscale_ip py (lit "100.63.255.255") = false
  /\ Nook.is_tailscale_ip py (lit "100.128.0.0") = false
  /\ Nook.is_tailscale_ip py (lit "10.0.0.1") = false
  /\ Nook.is_tailscale_ip py (lit "100.64.0") = false
  /\ Nook.is_tailscale_ip py (lit "abc.def.1.2") = false.
Proof.
  split; [|repeat split; reflexivity].
  intros ip; split.
  - intros H.
    destruct (str_split 46 ip) as [|p0 [|p1 [|p2 [|p3 [|p4 ps]]]]] eqn:Hs;
      try (unfold Nook.is_tailscale_ip in H; rewrite Hs in H; discriminate).
    rewrite (is_tailscale_ip_fields py ip p0 p1 p2 p3 Hs) in H.
    destruct (py_int py p0) as [first|] eqn:H0; [|discriminate].
    destruct (py_int py p1) as [second|] eqn:H1; [|discriminate].
    apply andb_true_iff in H as [Hf H].
    apply andb_true_iff in H as [Hlo Hhi].
    exists p0, p1, p2, p3, second.
    apply Z.eqb_eq in Hf. subst first.
    apply Z.leb_le in Hlo. apply Z.leb_le in Hhi.
    repeat split; assumption || reflexivity.
  - intros (p0 & p1 & p2 & p3 & second & Hs & H0 & H1 & Hlo & Hhi).
    rewrite (is_tailscale_ip_fields py ip p0 p1 p2 p3 Hs), H0, H1.
    apply Z.leb_le in Hlo. apply Z.leb_le in Hhi. now rewrite Hlo, Hhi.
Qed.

(** C10. Four dot-separated fields of which the first reads as 100 and the
    second as an integer from 64 to 127 are classified as overlay-trusted,
    whatever the third and the fourth field are. *)
Theorem is_tailscale_ip_ignores_last_fields
        (py : runtime) (p0 p1 p2 p3 : str) (second : Z) :
  dot_free p0 = true -> dot_free p1 = true ->
  dot_free p2 = true -> dot_free p3 = true ->
  py_int py p0 = Some 100%Z ->
  py_int py p1 = Some second ->
  (64 <= second <= 127)%Z ->
  Nook.is_tailscale_ip py (p0 ++ 46 :: p1 ++ 46 :: p2 ++ 46 :: p3) = true.
Proof.
  intros D0 D1 D2 D3 H0 H1 [Hlo Hhi].
  rewrite (is_tailscale_ip_fields py _ p0 p1 p2 p3
             (str_split_four p0 p1 p2 p3 D0 D1 D2 D3)), H0, H1.
  apply Z.leb_le in Hlo. apply Z.leb_le in Hhi. now rewrite Hlo, Hhi.
Qed.

Lemma is_tailscale_ip_ignores_last_fields_witness :
  Nook.is_tailscale_ip Example.runtime (lit "100.64.foo.bar") = true
  /\ Nook.is_tailscale_ip Example.runtime (lit "100.64.999.999") = true.
Proof.
  split.
  - apply (is_tailscale_ip_ignores_last_fields Example.runtime
             (lit "100") (lit "64") (lit "foo") (lit "bar") 64);
      try reflexivity; lia.
  - apply (is_tailscale_ip_ignores_last_fields Example.runtime
             (lit "100") (lit "64") (lit "999") (lit "999") 64);
      try reflexivity; lia.
Defined.

(** ** The host resolver *)

Lemma get_host_configured (env : environment) (w : world ConnectionConfig) :
  nonempty (host (config w)) = true ->
  Nook.get_host env w = (Return (host (config w)), w).
Proof.
  intros H. unfold Nook.get_host. unfold_py. simpl. now rewrite H.
Qed.

Lemma get_host_after_attempt (env : environment) (w : world ConnectionConfig) :
  _discovery_attempted (config w) = true ->
  exists h, Nook.get_host env w = (Return h, w).
Proof.
  intros H. unfold Nook.get_host. unfold_py. simpl.
  destruct (nonempty (host (config w))); [eauto|].
  rewrite H. simpl. eauto.
Qed.

Lemma discovery_attempts_snoc (tr : list event) (e : event) :
  (discovery_attempts (tr ++ [e]) <= discovery_attempts tr + 1)%nat.
Proof.
  unfold discovery_attempts. rewrite filter_app, length_app. simpl.
  destruct (is_discovery e); simpl; lia.
Qed.

(** C9. Two calls of the resolver in a row: the discovery command is run at
    most once, and never by the second call, which makes no call at all; the
    second call returns; it returns the host the first one returned and
    leaves the configuration as the first one left it; and the first call
    returns unless the discovery command fails with something other than
    the two errors [discover_via_bonjour] expects. *)
Theorem get_host_twice (env : environment) (w : world ConnectionConfig) :
  let '(r1, w1) := Nook.get_host env w in
  let '(r2, w2) := Nook.get_host env w1 in
  (discovery_attempts (trace w2) <= discovery_attempts (trace w) + 1)%nat
  /\ trace w2 = trace w1
  /\ (exists h, r2 = Return h)
  /\ (forall h, r1 = Return h -> r2 = Return h /\ w2 = w1)
  /\ ((forall e, os_run env (trace w) dns_sd_argv 2 = inl e ->
                 is_TimeoutExpired e || is_FileNotFoundError e = true) ->
      exists h, r1 = Return h).
Proof.
  destruct w as [c tr].
  destruct (nonempty (host c)) eqn:Hhost.
  - rewrite get_host_configured by exact Hhost.
    rewrite get_host_configured by exact Hhost. simpl.
    repeat split; eauto; lia.
  - destruct (_discovery_attempted c) eqn:Hatt.
    + destruct (get_host_after_attempt env (World c tr) Hatt) as [h Hh].
      rewrite Hh, Hh. repeat split; eauto; lia.
    + unfold Nook.get_host at 1, Nook.discover_via_bonjour, subprocess_run.
      unfold_py. simpl. rewrite Hhost, Hatt. simpl.
      fold dns_sd_argv.
      destruct (os_run env tr dns_sd_argv 2) as [e|out] eqn:Hrun; simpl;
        [destruct (is_TimeoutExpired e || is_FileNotFoundError e) eqn:He;
         simpl|].
      all: match goal with
           | |- context [Nook.get_host ?en ?w1] =>
               destruct (get_host_after_attempt en w1 eq_refl) as [h Hh];
               rewrite Hh
           end.
      all: unfold Nook.get_host in Hh; unfold_py; simpl in Hh.
      all: rewrite Hhost in Hh; simpl in Hh; injection Hh as Hh.
      all: cbn [trace config].
      all: split; [apply discovery_attempts_snoc|].
      all: split; [reflexivity|].
      all: split; [eauto|].
      all: split.
      all: try (intros h' Hh'; injection Hh' as <-; now rewrite Hh).
      all: try discriminate.
      all: try solve [intros _; eauto].
      intros Hok. specialize (Hok e eq_refl). congruence.
Qed.

Lemma get_host_twice_witness :
  let w := Example.fresh default_config in
  let '(r1, w1) := Nook.get_host nothing_there w in
  let '(r2, w2) := Nook.get_host nothing_there w1 in
  r1 = Return (lit "127.0.0.1") /\ r2 = Return (lit "127.0.0.1")
  /\ w2 = w1 /\ discovery_attempts (trace w2) = 1%nat.
Proof.
  pose proof (get_host_twice nothing_there (Example.fresh default_config))
    as H.
  cbv zeta.
  destruct (Nook.get_host nothing_there (Example.fresh default_config))
    as [r1 w1] eqn:H1.
  destruct (Nook.get_host nothing_there w1) as [r2 w2] eqn:H2.
  destruct H as (_ & _ & _ & Hsame & _).
  vm_compute in H1. injection H1 as <- <-.
  destruct (Hsame _ eq_refl) as [-> ->].
  repeat split; reflexivity.
Defined.

Lemma get_host_loopback (env : environment) (w : world ConnectionConfig) :
  host (config w) = [] ->
  _discovered_host (config w) = None ->
  discovery_expected env (trace w) ->
  exists w',
    Nook.get_host env w = (Return (lit "127.0.0.1"), w')
    /\ token (config w') = token (config w)
    /\ mode (config w') = mode (config w).
Proof.
  destruct w as [c tr]. simpl. intros Hhost Hnone Hexp.
  unfold Nook.get_host, Nook.discover_via_bonjour, subprocess_run.
  unfold_py. simpl. rewrite Hhost. simpl.
  destruct (_discovery_attempted c); simpl.
  - rewrite Hnone. eauto.
  - fold dns_sd_argv.
    destruct (os_run env tr dns_sd_argv 2) as [e|out] eqn:Hrun; simpl.
    + rewrite (Hexp e Hrun). simpl. rewrite Hnone. eauto.
    + rewrite Hnone. eauto.
Qed.

Lemma get_host_effect (env : environment) (w : world ConnectionConfig) :
  exists r w1 pre,
    Nook.get_host env w = (r, w1)
    /\ trace w1 = trace w ++ pre
    /\ (pre = [] \/ exists x, pre = [EvRun dns_sd_argv 2 x])
    /\ token (config w1) = token (config w)
    /\ timeout (config w1) = timeout (config w)
    /\ port (config w1) = port (config w).
Proof.
  destruct w as [c tr].
  unfold Nook.get_host, Nook.discover_via_bonjour, subprocess_run.
  unfold_py. simpl. fold dns_sd_argv.
  destruct (nonempty (host c)); simpl.
  { do 3 eexists. split; [reflexivity|]. simpl. rewrite app_nil_r. auto 10. }
  destruct (_discovery_attempted c); simpl.
  { do 3 eexists. split; [reflexivity|]. simpl. rewrite app_nil_r. auto 10. }
  destruct (os_run env tr dns_sd_argv 2) as [e|out]; simpl.
  - destruct (is_TimeoutExpired e || is_FileNotFoundError e); simpl;
      do 3 eexists; (split; [reflexivity|]); simpl; eauto 10.
  - do 3 eexists; (split; [reflexivity|]); simpl; eauto 10.
Qed.

(** ** What the transports add to the trace *)

Lemma sent_app (a b : list event) : sent (a ++ b) = sent a ++ sent b.
Proof. unfold sent. now rewrite flat_map_app. Qed.

Lemma chunks_app (a b : list event) : chunks (a ++ b) = chunks a ++ chunks b.
Proof. unfold chunks. now rewrite flat_map_app. Qed.

Lemma has_newline_app (a b : bytes) :
  has_newline (a ++ b) = has_newline a || has_newline b.
Proof. unfold has_newline. apply existsb_app. Qed.

Lemma chunks_send (s : sock) (data : bytes) (r : option exn)
      (tr : list event) :
  chunks (EvSendAll s data r :: tr) = chunks tr.
Proof. reflexivity. Qed.

Lemma sent_send (s : sock) (data : bytes) (r : option exn)
      (tr : list event) :
  sent (EvSendAll s data r :: tr) = data :: sent tr.
Proof. reflexivity. Qed.

Lemma last_app_nonempty {A : Type} (a b : list A) (d : A) :
  b <> [] -> last (a ++ b) d = last b d.
Proof.
  intros Hb. induction a as [|x a IH]; [reflexivity|].
  simpl. destruct (a ++ b) eqn:Hab; [|exact IH].
  apply app_eq_nil in Hab as [_ ->]. contradiction.
Qed.

Lemma send_payload_sent (py : runtime) (env : environment) (s : sock)
      (state : dict) (wait_for_response : bool) (w : world ConnectionConfig) :
  exists r w' post,
    send_payload py env s state wait_for_response w = (r, w')
    /\ trace w' = trace w ++ post
    /\ sent post = [json_dumps py (VDict state)]
    /\ chunks post = []
    /\ (forall s' b, ~ In (EvRecv s' 64 b) post)
    /\ config w' = config w.
Proof.
  destruct w as [c tr].
  unfold send_payload. unfold_sys. unfold_py.
  run_cbn.
  repeat step.
  all: try destruct (json_loads py _).
  all: do 3 eexists; (split; [reflexivity|]); simpl.
  all: split; [rewrite <- ?app_assoc; simpl; reflexivity|].
  all: repeat split; try reflexivity.
  all: intros s' b' Hin; simpl in Hin; intuition discriminate.
Qed.

(** The loop returns the buffer as soon as it holds a newline, and in no
    other case do the bytes read so far hold one; it returns [None], after
    closing the socket, when a chunk comes empty. *)
Lemma read_auth_response_buffer (env : environment) (fuel : nat) (s : sock)
      (buf : bytes) (w : world ConnectionConfig) :
  exists r w' post,
    read_auth_response env fuel s buf w = (r, w')
    /\ trace w' = trace w ++ post
    /\ config w' = config w
    /\ sent post = []
    /\ match r with
       | Return (Some b) => b = buf ++ chunks post /\ has_newline b = true
       | _ => has_newline (buf ++ chunks post) = false
       end
    /\ (In (EvRecv s 64 (inr [])) post ->
        r = Return None /\ last post (EvClose s) = EvClose s).
Proof.
  revert buf w. induction fuel as [|fuel IH]; intros buf [c tr]; simpl.
  - destruct (has_newline buf) eqn:Hnl; unfold_py;
      do 2 eexists; exists []; (split; [reflexivity|]); simpl;
      rewrite !app_nil_r; repeat split; auto; contradiction.
  - destruct (has_newline buf) eqn:Hnl.
    { unfold_py. do 2 eexists. exists []. split; [reflexivity|]. simpl.
      rewrite !app_nil_r. repeat split; auto; contradiction. }
    unfold_sys. unfold_py. run_cbn.
    destruct (os_recv env tr s 64) as [e|b]; run_cbn.
    + do 2 eexists. exists [EvRecv s 64 (inl e)].
      split; [reflexivity|]. simpl. rewrite app_nil_r.
      repeat split; auto; intuition discriminate.
    + destruct (nonempty (firstn 64 b)) eqn:Hne; run_cbn.
      * match goal with
        | |- context [read_auth_response env fuel s ?b' ?w1] =>
            destruct (IH b' w1)
              as (r & w' & post & Hr & Htr & Hc & Hs & Hb & Hclosed)
        end.
        rewrite Hr. do 2 eexists.
        exists (EvRecv s 64 (inr (firstn 64 b)) :: post).
        split; [reflexivity|].
        simpl in Htr, Hc. rewrite Htr, <- app_assoc. simpl.
        split; [reflexivity|]. split; [exact Hc|]. split; [exact Hs|].
        split.
        { destruct r as [[b'|]|e|]; rewrite <- ?app_assoc in Hb; exact Hb. }
        intros [Heq|Hin].
        { injection Heq as Heq. rewrite Heq in Hne. discriminate. }
        destruct (Hclosed Hin) as [-> Hlast].
        split; [reflexivity|].
        destruct post; [contradiction|exact Hlast].
      * do 2 eexists. exists [EvRecv s 64 (inr (firstn 64 b)); EvClose s].
        split; [reflexivity|]. simpl.
        rewrite <- app_assoc. simpl.
        destruct (firstn 64 b); [|discriminate].
        rewrite app_nil_r. repeat split; auto.
Qed.

(** What [authenticate] sends begins with the line [AUTH <token>]. *)
Lemma authenticate_sent (py : runtime) (env : environment) (fuel : nat)
      (s : sock) (state : dict) (wait_for_response : bool)
      (w : world ConnectionConfig) :
  exists r w' post,
    authenticate py env fuel s state wait_for_response w = (r, w')
    /\ trace w' = trace w ++ post
    /\ (sent post = []
        \/ exists line rest,
            str_encode (lit "AUTH " ++ token (config w) ++ [10]) = Some line
            /\ sent post = line :: rest).
Proof.
  destruct w as [c tr].
  unfold authenticate. unfold_sys. unfold_py.
  run_cbn.
  destruct (str_encode (lit "AUTH " ++ token c ++ [10])) as [line|] eqn:Henc;
    run_cbn.
  2:{ do 2 eexists. exists []. split; [reflexivity|]. simpl.
      rewrite app_nil_r. split; [reflexivity|left; reflexivity]. }
  destruct (os_sendall env tr s line); run_cbn.
  { do 3 eexists. split; [reflexivity|]. simpl.
    split; [reflexivity|right; do 2 eexists; split; reflexivity]. }
  match goal with
  | |- context [read_auth_response env fuel s ?b' ?w1] =>
      destruct (read_auth_response_buffer env fuel s b' w1)
        as (r & [c1 tr1] & post & Hr & Htr & Hc & Hs & _)
  end.
  rewrite Hr. simpl in Htr, Hc. subst.
  assert (Hdone : forall r' more,
             sent more = [] \/ sent more = [json_dumps py (VDict state)] ->
             exists (r : outcome value) (w' : world ConnectionConfig) post',
               (r', World c (((tr ++ [EvSendAll s line None]) ++ post) ++ more))
               = (r, w')
               /\ trace w' = tr ++ post'
               /\ (sent post' = []
                   \/ exists line' rest,
                       Some line = Some line' /\ sent post' = line' :: rest)).
  { intros r' more Hmore. do 3 eexists. split; [reflexivity|]. simpl.
    rewrite <- !app_assoc. simpl. split; [reflexivity|].
    right. exists line. eexists. split; [reflexivity|]. reflexivity. }
  destruct r as [[buf|]|e|]; run_cbn.
  2-4: rewrite <- (app_nil_r (_ ++ post)); apply Hdone; left; reflexivity.
  destruct (bytes_decode buf) as [text|]; run_cbn.
  2:{ rewrite <- (app_nil_r (_ ++ post)); apply Hdone; left; reflexivity. }
  destruct (negb (str_eqb (strip text) (lit "OK")));
    run_cbn.
  { apply Hdone. left. reflexivity. }
  match goal with
  | |- context [send_payload py env s state wait_for_response ?w1] =>
      destruct (send_payload_sent py env s state wait_for_response w1)
        as (r & [c2 tr2] & post2 & Hr2 & Htr2 & Hs2 & _ & _ & Hc2)
  end.
  rewrite Hr2. simpl in Htr2, Hc2. subst.
  apply Hdone. right. exact Hs2.
Qed.

(** ** The automatic mode *)

(** C1. In automatic mode, when the local socket path does not exist, no
    host and no secret are configured and discovery finds nothing, the
    resolved host is the loopback address, no remote attempt is made, and
    [send_event] then reads its local variable [result], which was never
    assigned: it raises [UnboundLocalError] instead of returning [None]. *)
Theorem send_event_unbound_result
        (py : runtime) (env : environment) (fuel : nat) (state : dict)
        (wait_for_response : bool) (w : world ConnectionConfig) :
  str_eqb (mode (config w)) (lit "socket") = false ->
  str_eqb (mode (config w)) (lit "tcp") = false ->
  os_path_exists env (trace w) (socket_path (config w)) = false ->
  host (config w) = [] ->
  token (config w) = [] ->
  _discovered_host (config w) = None ->
  discovery_expected env
    (trace w ++ [EvPathExists (socket_path (config w)) false]) ->
  fst (Nook.send_event py env fuel state wait_for_response w)
  = Raise UnboundLocalError.
Proof.
  intros Hsock Htcp Hpath Hhost Htok Hnone Hexp.
  unfold Nook.send_event, path_exists. unfold_py. simpl.
  rewrite Hsock, Htcp, Hpath. simpl.
  unfold Nook.remote_fallback. unfold_py.
  destruct (get_host_loopback env
              (World (config w)
                     (trace w ++ [EvPathExists (socket_path (config w)) false])))
    as (w' & Hget & Htok' & _); simpl; auto.
  rewrite Hget. simpl in Htok'. rewrite Htok', Htok. reflexivity.
Qed.

Lemma send_event_unbound_result_witness :
  fst (Nook.send_event Example.runtime nothing_there 0 [] false
         (Example.fresh default_config))
  = Raise UnboundLocalError.
Proof.
  apply send_event_unbound_result; try reflexivity.
  intros e He. vm_compute in He. injection He as <-. reflexivity.
Defined.

(** In the scenario of C1 the island hook, which assigns [result] before
    anything else, does return [None]. *)
Lemma island_send_event_no_result :
  fst (Island.send_event Example.runtime island_nothing_there 0 [] false
         (Example.fresh (Example.island_config [])))
  = Return VNone.
Proof. reflexivity. Qed.

(** ** The remote-only mode without a secret *)



(** Which time-outs [settimeout] takes. *)
Lemma timeout_fits (z : Z) :
  (0 <= z <= 9223372036)%Z ->
  timeout_overflows (inject_Z z) = false
  /\ (Qnum (inject_Z z) <? 0)%Z = false.
Proof.
  intros Hz. unfold timeout_overflows. cbn [inject_Z Qnum Qden].
  split; [apply Z.ltb_ge|apply Z.ltb_ge]; lia.
Qed.

Lemma timeout_too_long (z : Z) :
  (z < -9223372036 \/ 9223372036 < z)%Z ->
  timeout_overflows (inject_Z z) = true.
Proof.
  intros Hz. unfold timeout_overflows. cbn [inject_Z Qnum Qden].
  apply Z.ltb_lt. lia.
Qed.

Lemma timeout_negative (z : Z) :
  (-9223372036 <= z < 0)%Z ->
  timeout_overflows (inject_Z z) = false
  /\ (Qnum (inject_Z z) <? 0)%Z = true.
Proof.
  intros Hz. unfold timeout_overflows. cbn [inject_Z Qnum Qden].
  split; [apply Z.ltb_ge|apply Z.ltb_lt]; lia.
Qed.





(** ** The greeting *)

Lemma nook_greeting_skips_auth (py : runtime) (env : environment)
      (fuel : nat) (state : dict) (wait_for_response : bool)
      (w : world ConnectionConfig) :
  let '(r, w') := Nook.send_via_tcp py env fuel state wait_for_response w in
  exists new,
    trace w' = trace w ++ new
    /\ forall g,
        first_recv new = Some g ->
        greeting_ok g = true ->
        sent new = [json_dumps py (VDict state)].
Proof.
  unfold Nook.send_via_tcp. unfold bind at 1.
  destruct (get_host_effect env w)
    as (r0 & w1 & pre & Hget & Htr & Hpre & _).
  rewrite Hget.
  destruct r0 as [h|e|].
  2, 3: exists pre; split; [assumption|];
    destruct Hpre as [->|[x ->]]; simpl; intros g Hg; discriminate.
  destruct w1 as [c1 tr1]. simpl in Htr.
  unfold_sys. unfold_py.
  run_cbn.
  repeat step.
  all: try match goal with
         | |- context [send_payload ?p ?e ?s ?st ?wt ?w0] =>
             destruct (send_payload_sent p e s st wt w0)
               as (o & w2 & post & Hsp & Hpost & Hsent & _);
             rewrite Hsp; destruct w2 as [c2 tr2]; cbn [trace] in Hpost;
             destruct o
         | |- context [authenticate ?p ?e ?f ?s ?st ?wt ?w0] =>
             destruct (authenticate_sent p e f s st wt w0)
               as (o & w2 & post & Hsp & Hpost & _);
             rewrite Hsp; destruct w2 as [c2 tr2]; cbn [trace] in Hpost;
             destruct o
         end.
  all: unfold except_tcp; unfold_py; repeat step.
  all: match goal with H : _ \/ _ |- _ => destruct H as [->|[x ->]] end.
  all: subst.
  all: eexists; (split; [rewrite <- ?app_assoc; simpl; reflexivity|]).
  all: intros g Hrecv Hok; simpl in Hrecv.
  all: try discriminate.
  all: injection Hrecv as <-; cbn [greeting_ok] in Hok.
  all: try discriminate.
  all: repeat match goal with
              | H : bytes_decode _ = _ |- _ => rewrite H in Hok
              end.
  all: try discriminate.
  all: try match goal with
         | H : negb _ = true |- _ => rewrite Hok in H; discriminate
         end.
  all: try match goal with
         | H : nonempty (firstn 64 ?b) = false |- _ =>
             destruct (firstn 64 b); [|discriminate H];
             repeat match goal with
                    | H1 : bytes_decode [] = Some _ |- _ =>
                        vm_compute in H1; injection H1 as <-
                    end;
             vm_compute in Hok; discriminate Hok
         end.
  all: simpl; exact Hsent.
Qed.

Lemma island_auth_first (py : runtime) (env : environment)
      (fuel : nat) (state : dict) (wait_for_response : bool)
      (w : world ConnectionConfig) :
  let '(r, w') := Island.send_via_tcp py env fuel state wait_for_response w in
  exists new,
    trace w' = trace w ++ new
    /\ (sent new = []
        \/ exists line rest,
            str_encode (lit "AUTH " ++ token (config w) ++ [10]) = Some line
            /\ sent new = line :: rest).
Proof.
  destruct w as [c tr].
  unfold Island.send_via_tcp. unfold_sys. unfold_py.
  run_cbn.
  repeat step.
  all: try match goal with
         | |- context [authenticate ?p ?e ?f ?s ?st ?wt ?w0] =>
             destruct (authenticate_sent p e f s st wt w0)
               as (o & w2 & post & Hsp & Hpost & Hsent);
             rewrite Hsp; destruct w2 as [c2 tr2]; cbn [trace config] in *;
             destruct o
         end.
  all: unfold except_tcp; unfold_py; repeat step.
  all: subst.
  all: eexists; (split; [rewrite <- ?app_assoc; simpl; reflexivity
                        || (rewrite app_nil_r; reflexivity)|]).
  all: simpl; auto.
Qed.

(** C3, as the specification states it, fails on [claude-island-state.py],
    which has no probe for a greeting: to a peer that greets with OK it
    still sends its AUTH line first, and takes the greeting for the answer
    to it. *)
Lemma island_sends_auth_to_greeting_peer :
  let '(r, w') :=
    Island.send_event Example.runtime greeting_peer 1 [] false
      (Example.fresh island_tcp_config) in
  first_recv (trace w') = Some (inr (blit "OK" ++ [x0a]))
  /\ greeting_ok (inr (blit "OK" ++ [x0a])) = true
  /\ sent (trace w')
     = [blit "AUTH s3cret" ++ [x0a]; json_dumps Example.runtime (VDict [])].
Proof. vm_compute. repeat split; reflexivity. Qed.

(** C3, amended. In the nook hook, when the first thing read from the peer,
    the probe after the connection is made, is an OK greeting, the payload is
    sent and nothing else is: no AUTH line. The island hook has no probe:
    whatever it sends begins with its AUTH line. *)
Theorem greeting_skips_auth
        (py : runtime) (env : environment) (fuel : nat) (state : dict)
        (wait_for_response : bool) (w : world ConnectionConfig) :
  (let '(r, w') := Nook.send_via_tcp py env fuel state wait_for_response w in
   exists new,
     trace w' = trace w ++ new
     /\ forall g,
         first_recv new = Some g ->
         greeting_ok g = true ->
         sent new = [json_dumps py (VDict state)])
  /\ (let '(r, w') :=
        Island.send_via_tcp py env fuel state wait_for_response w in
      exists new,
        trace w' = trace w ++ new
        /\ (sent new = []
            \/ exists line rest,
                str_encode (lit "AUTH " ++ token (config w) ++ [10])
                = Some line
                /\ sent new = line :: rest)).
Proof.
  split; [apply nook_greeting_skips_auth|apply island_auth_first].
Qed.

Lemma greeting_skips_auth_witness :
  sent (trace (snd (Nook.send_via_tcp Example.runtime greeting_peer 0 []
                      false (Example.fresh tcp_config))))
  = [json_dumps Example.runtime (VDict [])].
Proof.
  pose proof (proj1 (greeting_skips_auth Example.runtime greeting_peer 0 []
                       false (Example.fresh tcp_config))) as H.
  destruct (Nook.send_via_tcp Example.runtime greeting_peer 0 [] false
              (Example.fresh tcp_config)) as [r w'] eqn:Hrun.
  destruct H as (new & Htr & H).
  vm_compute in Hrun. injection Hrun as <- <-.
  simpl in Htr. subst new. exact (H _ eq_refl eq_refl).
Defined.

(** ** The authentication exchange *)

(** What C4 says of the exchange holds whenever the answer is UTF-8. The
    AUTH line is the first thing sent and is sent once, and only the payload
    can follow it. When the bytes read in answer hold a newline and decode to
    a text, the payload follows if the text, trimmed, is OK; otherwise
    nothing follows, the socket is closed and the result is [None]. When a
    chunk comes empty, the peer having closed, nothing follows, the socket
    is closed and the result is [None]. *)
Lemma authenticate_decides (py : runtime) (env : environment) (fuel : nat)
      (s : sock) (state : dict) (wait_for_response : bool)
      (w : world ConnectionConfig) (line : bytes) :
  str_encode (lit "AUTH " ++ token (config w) ++ [10]) = Some line ->
  let '(r, w') := authenticate py env fuel s state wait_for_response w in
  exists post,
    trace w' = trace w ++ post
    /\ (sent post = [line]
        \/ sent post = [line; json_dumps py (VDict state)])
    /\ (forall text,
           has_newline (chunks post) = true ->
           bytes_decode (chunks post) = Some text ->
           if str_eqb (strip text) (lit "OK")
           then sent post = [line; json_dumps py (VDict state)]
           else sent post = [line] /\ r = Return VNone
                /\ last post (EvClose s) = EvClose s)
    /\ (In (EvRecv s 64 (inr [])) post ->
        sent post = [line] /\ r = Return VNone
        /\ last post (EvClose s) = EvClose s).
Proof.
  destruct w as [c tr]. cbn [config]. intros Henc.
  unfold authenticate. unfold_sys. unfold_py. run_cbn.
  rewrite Henc. run_cbn.
  destruct (os_sendall env tr s line); run_cbn.
  { eexists. split; [reflexivity|]. simpl.
    repeat split; auto; try discriminate; intuition discriminate. }
  match goal with
  | |- context [read_auth_response env fuel s ?b' ?w1] =>
      destruct (read_auth_response_buffer env fuel s b' w1)
        as (r & [c1 tr1] & post & Hr & Htr & Hc & Hs & Hb & Hclosed)
  end.
  rewrite Hr. simpl in Htr, Hc, Hb. subst.
  assert (Hstop : forall r',
             has_newline (chunks post) = false ->
             (In (EvRecv s 64 (inr [])) post ->
              r' = Return VNone /\ last post (EvClose s) = EvClose s) ->
             exists post0,
               (tr ++ [EvSendAll s line None]) ++ post = tr ++ post0
               /\ (sent post0 = [line]
                   \/ sent post0 = [line; json_dumps py (VDict state)])
               /\ (forall text,
                      has_newline (chunks post0) = true ->
                      bytes_decode (chunks post0) = Some text ->
                      if str_eqb (strip text) (lit "OK")
                      then sent post0 = [line; json_dumps py (VDict state)]
                      else sent post0 = [line] /\ r' = Return VNone
                           /\ last post0 (EvClose s) = EvClose s)
               /\ (In (EvRecv s 64 (inr [])) post0 ->
                   sent post0 = [line] /\ r' = Return VNone
                   /\ last post0 (EvClose s) = EvClose s)).
  { intros r' Hnl Hcl. exists (EvSendAll s line None :: post).
    rewrite <- app_assoc. cbn [app]. rewrite sent_send, chunks_send, Hs.
    split; [reflexivity|]. split; [auto|]. split.
    - intros text Hnl'. congruence.
    - intros [Heq|Hin]; [discriminate|].
      destruct (Hcl Hin) as [-> Hlast].
      destruct post; [contradiction|auto]. }
  destruct r as [[buf|]|e|]; run_cbn.
  2:{ apply Hstop; [exact Hb|].
      intros Hin. split; [reflexivity|apply (Hclosed Hin)]. }
  2, 3: apply Hstop; [exact Hb|];
        intros Hin; destruct (Hclosed Hin) as [Heq _]; discriminate.
  destruct Hb as [-> Hnl].
  assert (Hopen : ~ In (EvRecv s 64 (inr [])) post).
  { intros Hin. destruct (Hclosed Hin) as [Heq _]. discriminate. }
  destruct (bytes_decode (chunks post)) as [text|] eqn:Hdec; run_cbn.
  2:{ exists (EvSendAll s line None :: post).
      rewrite <- app_assoc. cbn [app]. rewrite sent_send, chunks_send, Hs.
      split; [reflexivity|]. split; [auto|]. split.
      - intros text _ Hdec'. congruence.
      - intros [Heq|Hin]; [discriminate|contradiction]. }
  destruct (str_eqb (strip text) (lit "OK")) eqn:Hok; run_cbn.
  - match goal with
    | |- context [send_payload py env s state wait_for_response ?w1] =>
        destruct (send_payload_sent py env s state wait_for_response w1)
          as (r & [c2 tr2] & post2 & Hr2 & Htr2 & Hs2 & Hch2 & Hno64 & _)
    end.
    rewrite Hr2. simpl in Htr2. subst.
    exists (EvSendAll s line None :: post ++ post2).
    rewrite <- !app_assoc. cbn [app].
    rewrite sent_send, chunks_send, sent_app, chunks_app, Hs, Hs2, Hch2,
      app_nil_r.
    cbn [app].
    split; [reflexivity|]. split; [auto|]. split.
    + intros text' _ Hdec'. rewrite Hdec in Hdec'. injection Hdec' as <-.
      rewrite Hok. reflexivity.
    + intros [Heq|Hin]; [discriminate|].
      apply in_app_or in Hin as [Hin|Hin]; [contradiction|].
      exfalso. exact (Hno64 _ _ Hin).
  - exists (EvSendAll s line None :: post ++ [EvClose s]).
    rewrite <- !app_assoc. cbn [app].
    rewrite sent_send, chunks_send, sent_app, chunks_app, Hs.
    change (chunks [EvClose s]) with (@nil byte).
    change (sent [EvClose s]) with (@nil bytes).
    rewrite !app_nil_r. cbn [app].
    split; [reflexivity|]. split; [auto|].
    assert (Hlast : last (EvSendAll s line None :: post ++ [EvClose s])
                         (EvClose s) = EvClose s).
    { change (EvSendAll s line None :: post ++ [EvClose s])
        with ((EvSendAll s line None :: post) ++ [EvClose s]).
      rewrite last_app_nonempty; [reflexivity|discriminate]. }
    split.
    + intros text' _ Hdec'. rewrite Hdec in Hdec'. injection Hdec' as <-.
      rewrite Hok. auto.
    + intros _. auto.
Qed.

(** C4 fails on an answer to the AUTH line that is not UTF-8: the attempt
    does not end with no result, [UnicodeDecodeError] leaves
    [send_via_tcp] and [send_event], and the socket stays open. That is so
    in both hooks. *)
Theorem auth_reply_not_utf8_raises :
  Nook.send_event Example.runtime garbled_auth_peer 1 [] false
    (Example.fresh secret_config)
  = (Raise UnicodeDecodeError,
     World secret_config
           [EvSocket AF_INET None;
            EvSetTimeout 0%nat (inject_Z 300);
            EvConnect 0%nat (InetAddr (lit "10.0.0.1") 4851) None;
            EvSetTimeout 0%nat (1 # 2);
            EvRecv 0%nat 64 (inl TimeoutError);
            EvSetTimeout 0%nat (inject_Z 300);
            EvSendAll 0%nat (blit "AUTH s3cret" ++ [x0a]) None;
            EvRecv 0%nat 64 (inr [xff; x0a])])
  /\ Island.send_event Example.runtime (replying [xff; x0a]) 1 [] false
       (Example.fresh island_tcp_config)
     = (Raise UnicodeDecodeError,
        World island_tcp_config
              [EvSocket AF_INET None;
               EvSetTimeout 0%nat (inject_Z 300);
               EvConnect 0%nat (InetAddr (lit "127.0.0.1") 4851) None;
               EvSendAll 0%nat (blit "AUTH s3cret" ++ [x0a]) None;
               EvRecv 0%nat 64 (inr [xff; x0a])]).
Proof. split; vm_compute; reflexivity. Qed.

(** ** The local transport: replies and the socket *)

(** What C7 says holds of a reply that is UTF-8, and what C6 says holds of
    the paths on which no call fails. In [send_via_socket], waiting for a
    reply: an empty reply gives [None]; a reply that decodes gives what
    [json.loads] makes of it, and [None] when that is [JSONDecodeError]; a
    reply that does not decode raises [UnicodeDecodeError]. Once the socket
    exists and has taken its time-out, [close] is called on it exactly when
    no call on it has failed: on the other paths the socket is left to the
    finaliser, or to the exception that leaves the function. *)
Lemma send_via_socket_outcomes (py : runtime) (env : environment)
      (state : dict) (wait_for_response : bool) (w : world ConnectionConfig) :
  let '(r, w') := send_via_socket py env state wait_for_response w in
  exists new,
    trace w' = trace w ++ new
    /\ (forall reply,
           first_recv new = Some (inr reply) ->
           match reply with
           | [] => r = Return VNone
           | _ :: _ =>
               match bytes_decode reply with
               | None => r = Raise UnicodeDecodeError
               | Some text =>
                   match json_loads py text with
                   | inr v => r = Return v
                   | inl e => is_JSONDecodeError e = true -> r = Return VNone
                   end
               end
           end)
    /\ (In (EvSocket AF_UNIX None) new ->
        (0 <= timeout (config w) <= 9223372036)%Z ->
        close_called (length (trace w)) new = no_failure new).
Proof.
  destruct w as [c tr].
  unfold send_via_socket, send_payload. unfold_sys. unfold_py. run_cbn.
  repeat step.
  all: repeat match goal with
              | |- context [json_loads ?p ?t] =>
                  destruct (json_loads p t) eqn:?; run_cbn
              end.
  all: unfold except_socket; unfold_py; repeat step.
  all: eexists; (split; [rewrite <- ?app_assoc; simpl; reflexivity
                        || (rewrite app_nil_r; reflexivity)|]).
  all: split;
    [intros reply Hrecv; simpl in Hrecv; try discriminate;
     injection Hrecv as <-
    |intros Hin Hpos; simpl in Hin; try solve [intuition discriminate]].
  all: try match goal with
         | Hp : (0 <= _ <= 9223372036)%Z |- _ =>
             solve [exfalso; destruct (timeout_fits _ Hp); simpl in *;
                    congruence]
         end.
  all: try solve [simpl; rewrite ?Nat.eqb_refl; reflexivity].
  all: try match goal with
         | H : nonempty (firstn 4096 ?b) = false |- _ =>
             destruct (firstn 4096 b); [reflexivity|discriminate H]
         end.
  all: match goal with
       | H : nonempty (firstn 4096 ?b) = true |- _ =>
           destruct (firstn 4096 b) eqn:Hreply; [discriminate H|]
       end.
  all: repeat match goal with
              | H : bytes_decode _ = _ |- _ => rewrite H
              | H : json_loads _ _ = _ |- _ => rewrite H
              end.
  all: try reflexivity.
  all: try (intros He; congruence).
  all: try match goal with
         | H : is_JSONDecodeError ?e = false |- _ =>
             intros He; rewrite He in H; discriminate
         end.
Qed.

(** An empty reply is no decision: the transport returns [None]. *)
Lemma empty_reply_is_none :
  fst (send_via_socket Example.runtime (replying []) [] true
         (Example.fresh socket_config))
  = Return VNone.
Proof. reflexivity. Qed.

(** C7 fails on a reply that is not UTF-8: [UnicodeDecodeError] is not among
    the exceptions the transports catch, and leaves [send_via_socket] and
    [send_via_tcp]. *)
Theorem reply_not_utf8_raises :
  send_via_socket Example.runtime (replying [xff]) [] true
    (Example.fresh socket_config)
  = (Raise UnicodeDecodeError,
     World socket_config
           [EvSocket AF_UNIX None;
            EvSetTimeout 0%nat (inject_Z 300);
            EvConnect 0%nat (UnixPath (lit "/tmp/claude-nook.sock")) None;
            EvSendAll 0%nat (json_dumps Example.runtime (VDict [])) None;
            EvRecv 0%nat 4096 (inr [xff]);
            EvClose 0%nat])
  /\ Nook.send_via_tcp Example.runtime (greeting_and_replying [xff]) 0 []
       true (Example.fresh tcp_config)
     = (Raise UnicodeDecodeError,
        World tcp_config
              [EvSocket AF_INET None;
               EvSetTimeout 0%nat (inject_Z 300);
               EvConnect 0%nat (InetAddr (lit "10.0.0.1") 4851) None;
               EvSetTimeout 0%nat (1 # 2);
               EvRecv 0%nat 64 (inr (blit "OK" ++ [x0a]));
               EvSetTimeout 0%nat (inject_Z 300);
               EvSendAll 0%nat (json_dumps Example.runtime (VDict [])) None;
               EvRecv 0%nat 4096 (inr [xff]);
               EvClose 0%nat]).
Proof. split; vm_compute; reflexivity. Qed.

(** What C6 says holds of every path on which a transport returns, by the
    finaliser where not by [close]: when the reply to a permission request
    does not come in time, [send_via_socket] returns [None] without having
    called [close], and the socket dies with the frame. *)
Lemma timeout_releases_socket :
  let '(r, w') :=
    send_via_socket Example.runtime silent_peer [] true
      (Example.fresh socket_config) in
  r = Return VNone
  /\ trace w' = [EvSocket AF_UNIX None;
                 EvSetTimeout 0%nat (inject_Z 300);
                 EvConnect 0%nat (UnixPath (lit "/tmp/claude-nook.sock")) None;
                 EvSendAll 0%nat (json_dumps Example.runtime (VDict [])) None;
                 EvRecv 0%nat 4096 (inl TimeoutError)]
  /\ close_called 0%nat (trace w') = false
  /\ open_at_exit 0%nat r (trace w') = false.
Proof. vm_compute. repeat split; reflexivity. Qed.

(** C6 fails on the decode error of the authentication exchange: when the
    answer to the AUTH line is not UTF-8, [send_via_tcp] of either hook is
    left by [UnicodeDecodeError] before any [close], and the exception
    keeps the socket alive: the connection is open when the transport is
    left. *)
Theorem decode_error_leaves_socket_open :
  (let '(r, w') :=
     Nook.send_via_tcp Example.runtime garbled_auth_peer 1 [] false
       (Example.fresh secret_config) in
   r = Raise UnicodeDecodeError
   /\ trace w' = [EvSocket AF_INET None;
                  EvSetTimeout 0%nat (inject_Z 300);
                  EvConnect 0%nat (InetAddr (lit "10.0.0.1") 4851) None;
                  EvSetTimeout 0%nat (1 # 2);
                  EvRecv 0%nat 64 (inl TimeoutError);
                  EvSetTimeout 0%nat (inject_Z 300);
                  EvSendAll 0%nat (blit "AUTH s3cret" ++ [x0a]) None;
                  EvRecv 0%nat 64 (inr [xff; x0a])]
   /\ close_called 0%nat (trace w') = false
   /\ open_at_exit 0%nat r (trace w') = true)
  /\ (let '(r, w') :=
        Island.send_via_tcp Example.runtime (replying [xff; x0a]) 1 [] false
          (Example.fresh island_tcp_config) in
      r = Raise UnicodeDecodeError
      /\ trace w' = [EvSocket AF_INET None;
                     EvSetTimeout 0%nat (inject_Z 300);
                     EvConnect 0%nat (InetAddr (lit "127.0.0.1") 4851) None;
                     EvSendAll 0%nat (blit "AUTH s3cret" ++ [x0a]) None;
                     EvRecv 0%nat 64 (inr [xff; x0a])]
      /\ close_called 0%nat (trace w') = false
      /\ open_at_exit 0%nat r (trace w') = true).
Proof. vm_compute. repeat split; reflexivity. Qed.

(** ** Permission decisions *)



(** [main] of either hook on a permission request, end to end, with the
    text the caller reads on the standard output: the allow decision is
    the one line printed, and the last thing the process does before it
    exits with status 0; after a denial the one line carries the reason
    given as its message; after an empty reply nothing is printed. *)
Lemma main_permission_request :
  (let '(r, w') :=
     Nook.main Example.runtime
       (deciding (Example.quoted "{'decision': 'allow'}")) 0
       permission_request_stdin (Example.fresh socket_config) in
   r = Raise (SystemExit 0)
   /\ prints (trace w')
      = [Example.quoted
           "{'hookSpecificOutput': {'hookEventName': 'PermissionRequest', 'decision': {'behavior': 'allow'}}}"]
   /\ last (trace w') (EvClose 0%nat)
      = EvPrint
          (Example.quoted
             "{'hookSpecificOutput': {'hookEventName': 'PermissionRequest', 'decision': {'behavior': 'allow'}}}"))
  /\ (let '(r, w') :=
        Island.main Example.runtime
          (deciding (Example.quoted "{'decision': 'deny', 'reason': 'no'}")) 0
          permission_request_stdin
          (Example.fresh
             (Example.island_config
                [("CLAUDE_ISLAND_MODE", "socket")]%string)) in
      r = Raise (SystemExit 0)
      /\ prints (trace w')
         = [Example.quoted
              "{'hookSpecificOutput': {'hookEventName': 'PermissionRequest', 'decision': {'behavior': 'deny', 'message': 'no'}}}"])
  /\ (let '(r, w') :=
        Nook.main Example.runtime (deciding []) 0
          permission_request_stdin (Example.fresh socket_config) in
      r = Raise (SystemExit 0)
      /\ prints (trace w') = []
      /\ last (trace w') (EvPrint []) = EvClose 5%nat).
Proof. vm_compute. repeat split; reflexivity. Qed.


(** * Further properties *)

(** ** The local transport *)

(** X1. [send_via_socket] lets no [OSError] and no [JSONDecodeError] out: it
    returns, or raises an exception of another kind; it leaves the
    configuration alone; and when no reply is awaited, what it returns is
    [None]. *)
Theorem send_via_socket_swallows (py : runtime) (env : environment)
        (state : dict) (wait_for_response : bool)
        (w : world ConnectionConfig) :
  let '(r, w') := send_via_socket py env state wait_for_response w in
  config w' = config w
  /\ match r with
     | Return v => wait_for_response = false -> v = VNone
     | Raise e => caught e = false
     | OutOfFuel => False
     end.
Proof.
  destruct w as [c tr].
  unfold send_via_socket, send_payload. unfold_sys. unfold_py. run_cbn.
  repeat step.
  all: repeat match goal with
              | |- context [json_loads ?p ?t] =>
                  destruct (json_loads p t) eqn:?; run_cbn
              end.
  all: unfold except_socket; unfold_py; repeat step.
  all: split; [reflexivity|]; try reflexivity; try discriminate.
  all: unfold caught.
  all: repeat match goal with
              | H : is_OSError _ = false |- _ => rewrite H
              | H : is_JSONDecodeError _ = false |- _ => rewrite H
              end.
  all: reflexivity.
Qed.


Lemma local_event_not_network (s : sock) (path : str) (payload : bytes)
      (new : list event) :
  Forall (local_event s path payload) new ->
  existsb is_network new = false /\ discovery_attempts new = 0%nat.
Proof.
  unfold discovery_attempts.
  induction 1 as [|e new He _ [IHn IHd]]; [split; reflexivity|].
  simpl. rewrite IHn.
  destruct e as [[|] ?| | ? [|] ?| | | | | | | |]; simpl in *;
    try contradiction; auto.
Qed.

Lemma send_via_socket_effect (py : runtime) (env : environment)
      (state : dict) (wait_for_response : bool)
      (w : world ConnectionConfig) :
  exists r w' new,
    send_via_socket py env state wait_for_response w = (r, w')
    /\ trace w' = trace w ++ new
    /\ config w' = config w
    /\ Forall (local_event (length (trace w)) (socket_path (config w))
                           (json_dumps py (VDict state))) new
    /\ r <> OutOfFuel
    /\ (wait_for_response = false -> r = Return VNone \/ exists e, r = Raise e).
Proof.
  destruct w as [c tr].
  unfold send_via_socket, send_payload. unfold_sys. unfold_py. run_cbn.
  repeat step.
  all: repeat match goal with
              | |- context [json_loads ?p ?t] =>
                  destruct (json_loads p t) eqn:?; run_cbn
              end.
  all: unfold except_socket; unfold_py; repeat step.
  all: do 3 eexists; (split; [reflexivity|]).
  all: (split; [rewrite <- ?app_assoc; simpl; reflexivity
               || (simpl; rewrite app_nil_r; reflexivity)|]).
  all: split; [reflexivity|].
  all: split; [repeat constructor|].
  all: split; [discriminate|].
  all: intros ?; try discriminate; eauto.
Qed.

(** X3. In local-only mode every outside call of [send_event], in either
    hook, is a call of the local transport on its one socket: nothing
    reaches the network, the discovery command is not run, and the
    configuration is left alone. *)
Theorem socket_mode_stays_local
        (py : runtime) (env : environment) (fuel : nat) (state : dict)
        (wait_for_response : bool) (w : world ConnectionConfig) :
  mode (config w) = lit "socket" ->
  (let '(r, w') := Nook.send_event py env fuel state wait_for_response w in
   exists new,
     trace w' = trace w ++ new
     /\ Forall (local_event (length (trace w)) (socket_path (config w))
                            (json_dumps py (VDict state))) new
     /\ existsb is_network new = false
     /\ discovery_attempts new = 0%nat
     /\ config w' = config w)
  /\ (let '(r, w') :=
        Island.send_event py env fuel state wait_for_response w in
      exists new,
        trace w' = trace w ++ new
        /\ Forall (local_event (length (trace w)) (socket_path (config w))
                               (json_dumps py (VDict state))) new
        /\ existsb is_network new = false
        /\ config w' = config w).
Proof.
  intros Hmode.
  destruct (send_via_socket_effect py env state wait_for_response w)
    as (r & w' & new & Hrun & Htr & Hc & Hloc & _).
  destruct (local_event_not_network _ _ _ _ Hloc) as [Hnet Hdisc].
  assert (Hn : Nook.send_event py env fuel state wait_for_response w
               = (r, w')).
  { unfold Nook.send_event. unfold_py. rewrite Hmode. exact Hrun. }
  assert (Hi : Island.send_event py env fuel state wait_for_response w
               = (r, w')).
  { unfold Island.send_event. unfold_py. rewrite Hmode. exact Hrun. }
  rewrite Hn, Hi. split; exists new; auto.
Qed.

Lemma socket_mode_stays_local_witness :
  let '(r, w') :=
    Nook.send_event Example.runtime silent_peer 0 [] true
      (Example.fresh socket_config) in
  exists new,
    trace w' = [] ++ new
    /\ Forall (local_event 0%nat (lit "/tmp/claude-nook.sock")
                           (json_dumps Example.runtime (VDict []))) new
    /\ existsb is_network new = false
    /\ discovery_attempts new = 0%nat
    /\ config w' = socket_config.
Proof.
  exact (proj1 (socket_mode_stays_local Example.runtime silent_peer 0 [] true
                  (Example.fresh socket_config) eq_refl)).
Defined.

(** X4. A time-out that [ConnectionConfig] accepts from the environment
    but a socket does not take, one below 0 or above 9223372036 seconds,
    is refused by [settimeout]: with [ValueError] when it is negative and
    not below -9223372036, with [OverflowError] otherwise. No [except]
    clause of [send_via_socket] catches either: once the socket is created
    the function is left by the exception, having made no other call, not
    even [close]. *)
Theorem refused_timeout_raises
        (py : runtime) (env : environment) (state : dict)
        (wait_for_response : bool) (w : world ConnectionConfig) :
  ~ (0 <= timeout (config w) <= 9223372036)%Z ->
  os_socket env (trace w) AF_UNIX = None ->
  send_via_socket py env state wait_for_response w
  = (Raise (if (timeout (config w) <? 0)%Z
               && (-9223372036 <=? timeout (config w))%Z
            then ValueError else OverflowError),
     World (config w) (trace w ++ [EvSocket AF_UNIX None])).
Proof.
  destruct w as [c tr]. cbn [config trace]. intros Hout Hsock.
  unfold send_via_socket. unfold_sys. unfold_py. run_cbn.
  rewrite Hsock. run_cbn.
  destruct (Z_lt_dec (timeout c) 0) as [Hneg|Hpos].
  - destruct (Z_le_dec (-9223372036) (timeout c)) as [Hin|Hbelow].
    + destruct (timeout_negative (timeout c)) as [Hov Hlt]; [lia|].
      rewrite Hov, Hlt. run_cbn.
      replace ((timeout c <? 0)%Z) with true
        by (symmetry; apply Z.ltb_lt; lia).
      replace ((-9223372036 <=? timeout c)%Z) with true
        by (symmetry; apply Z.leb_le; lia).
      reflexivity.
    + rewrite (timeout_too_long (timeout c)) by lia. run_cbn.
      replace ((-9223372036 <=? timeout c)%Z) with false
        by (symmetry; apply Z.leb_gt; lia).
      rewrite andb_false_r. reflexivity.
  - rewrite (timeout_too_long (timeout c)) by lia. run_cbn.
    replace ((timeout c <? 0)%Z) with false
      by (symmetry; apply Z.ltb_ge; lia).
    reflexivity.
Qed.

Lemma refused_timeout_raises_witness :
  Nook.ConnectionConfig_init Example.runtime
    (map (fun kv => (lit (fst kv), lit (snd kv)))
         [("CLAUDE_NOOK_MODE", "socket");
          ("CLAUDE_NOOK_TIMEOUT", "-5")]%string)
  = Some negative_timeout_config
  /\ send_via_socket Example.runtime obliging [] false
       (Example.fresh negative_timeout_config)
     = (Raise ValueError,
        World negative_timeout_config [EvSocket AF_UNIX None])
  /\ send_via_socket Example.runtime obliging [] false
       (Example.fresh overlong_timeout_config)
     = (Raise OverflowError,
        World overlong_timeout_config [EvSocket AF_UNIX None]).
Proof.
  split; [reflexivity|]. split.
  - apply (refused_timeout_raises Example.runtime obliging [] false
             (Example.fresh negative_timeout_config)).
    + vm_compute. intros [H _]. apply H. reflexivity.
    + reflexivity.
  - apply (refused_timeout_raises Example.runtime obliging [] false
             (Example.fresh overlong_timeout_config)).
    + vm_compute. intros [_ H]. apply H. reflexivity.
    + reflexivity.
Defined.

(** ** The host resolver, continued *)

(** X5. [get_host] returns the host the configuration resolves to before
    the call: what the discovery command prints never matters. The call
    changes nothing but the mark that discovery was attempted, and changes
    nothing at all when a host is configured or discovery was attempted
    before. It raises only what the discovery command raises other than the
    two errors [discover_via_bonjour] expects. *)
Theorem get_host_resolves (env : environment) (w : world ConnectionConfig) :
  let '(r, w') := Nook.get_host env w in
  match r with
  | Return h => h = resolved (config w)
  | Raise e =>
      nonempty (host (config w)) = false
      /\ _discovery_attempted (config w) = false
      /\ os_run env (trace w) dns_sd_argv 2 = inl e
      /\ is_TimeoutExpired e || is_FileNotFoundError e = false
  | OutOfFuel => False
  end
  /\ resolved (config w') = resolved (config w)
  /\ (config w' = config w
      \/ config w' = with_discovery_attempted (config w) true)
  /\ (nonempty (host (config w)) = true
      \/ _discovery_attempted (config w) = true -> w' = w).
Proof.
  destruct w as [c tr].
  unfold Nook.get_host, Nook.discover_via_bonjour, subprocess_run, resolved.
  unfold_py. simpl. fold dns_sd_argv.
  destruct (nonempty (host c)) eqn:Hhost; simpl.
  { rewrite Hhost. auto. }
  destruct (_discovery_attempted c) eqn:Hatt; simpl.
  { rewrite Hhost. auto. }
  destruct (os_run env tr dns_sd_argv 2) as [e|out] eqn:Hrun; simpl.
  - destruct (is_TimeoutExpired e || is_FileNotFoundError e) eqn:He; simpl;
      rewrite ?Hhost; repeat split; auto;
      intros [H|H]; discriminate.
  - rewrite Hhost. repeat split; auto. intros [H|H]; discriminate.
Qed.

Lemma get_host_result (env : environment) (w : world ConnectionConfig) :
  exists r w1 pre,
    Nook.get_host env w = (r, w1)
    /\ trace w1 = trace w ++ pre
    /\ (pre = [] \/ exists x, pre = [EvRun dns_sd_argv 2 x])
    /\ (r = Return (resolved (config w))
        \/ exists e, r = Raise e /\ pre = [EvRun dns_sd_argv 2 (inl e)])
    /\ (config w1 = config w
        \/ config w1 = with_discovery_attempted (config w) true).
Proof.
  destruct w as [c tr].
  unfold Nook.get_host, Nook.discover_via_bonjour, subprocess_run, resolved.
  unfold_py. simpl. fold dns_sd_argv.
  destruct (nonempty (host c)) eqn:Hhost; simpl.
  { do 3 eexists. split; [reflexivity|]. simpl. rewrite app_nil_r. auto 10. }
  destruct (_discovery_attempted c); simpl.
  { do 3 eexists. split; [reflexivity|]. simpl. rewrite app_nil_r. auto 10. }
  destruct (os_run env tr dns_sd_argv 2) as [e|out]; simpl.
  - destruct (is_TimeoutExpired e || is_FileNotFoundError e); simpl;
      do 3 eexists; (split; [reflexivity|]); simpl; eauto 10.
  - do 3 eexists; (split; [reflexivity|]); simpl; eauto 10.
Qed.

(** X6. The first call of [get_host] in a process: with a non-empty
    [CLAUDE_NOOK_HOST] it returns that text and does nothing; without one it
    runs the discovery command once, marks the attempt, and returns the
    loopback address. *)
Theorem first_get_host (py : runtime) (env : environment)
        (environ : list (str * str)) (c : ConnectionConfig)
        (tr : list event) :
  Nook.ConnectionConfig_init py environ = Some c ->
  discovery_expected env tr ->
  Nook.get_host env (World c tr)
  = if nonempty (environ_get environ (lit "CLAUDE_NOOK_HOST") [])
    then (Return (environ_get environ (lit "CLAUDE_NOOK_HOST") []),
          World c tr)
    else (Return (lit "127.0.0.1"),
          World (with_discovery_attempted c true)
                (tr ++ [EvRun dns_sd_argv 2 (os_run env tr dns_sd_argv 2)])).
Proof.
  unfold Nook.ConnectionConfig_init. intros Hinit Hexp.
  destruct (py_int py (environ_get environ (lit "CLAUDE_NOOK_PORT") _));
    [|discriminate].
  destruct (py_int py (environ_get environ (lit "CLAUDE_NOOK_TIMEOUT") _));
    [|discriminate].
  injection Hinit as <-.
  unfold Nook.get_host, Nook.discover_via_bonjour, subprocess_run.
  unfold_py. simpl. fold dns_sd_argv.
  destruct (nonempty (environ_get environ (lit "CLAUDE_NOOK_HOST") []));
    simpl; [reflexivity|].
  destruct (os_run env tr dns_sd_argv 2) as [e|out] eqn:Hrun; simpl.
  - rewrite (Hexp e Hrun). reflexivity.
  - reflexivity.
Qed.

Lemma first_get_host_witness :
  Nook.get_host nothing_there (Example.fresh default_config)
  = (Return (lit "127.0.0.1"),
     World (with_discovery_attempted default_config true)
           [EvRun dns_sd_argv 2 (inr [])]).
Proof.
  refine (first_get_host Example.runtime nothing_there [] default_config []
            eq_refl _).
  intros e He. vm_compute in He. discriminate.
Defined.

(** ** The terminal *)

Lemma starts_with_dev (tty : str) :
  starts_with (lit "/dev/" ++ tty) (lit "/dev/") = true.
Proof. destruct tty; reflexivity. Qed.

(** X7. [get_tty] asks for the parent process, runs [ps] for it, and then
    asks [os.ttyname] about descriptor 0, then about descriptor 1, and
    about nothing else; the calls it makes and what it returns are these.
    When [ps] names a terminal, that name, with [/dev/] put before it if it
    does not start with it, is returned and no descriptor is asked about.
    When [ps] raises something that is not an [Exception], that leaves the
    function. Otherwise descriptor 0 is asked about: its terminal is
    returned if it has one; an exception other than [OSError] and
    [AttributeError] leaves the function; and after one of these two,
    descriptor 1 is asked about in the same way, with [None] returned
    after one of these two. The configuration is left alone. *)
Theorem get_tty_result (env : environment) (w : world ConnectionConfig) :
  let '(r, w') := get_tty env w in
  exists x rest,
    trace w' = trace w ++ EvGetppid (os_getppid env (trace w))
                       :: EvRun (ps_argv (os_getppid env (trace w))) 2 x
                       :: rest
    /\ config w' = config w
    /\ match rest with
       | [] =>
           match x with
           | inr out =>
               ps_names_terminal x = true
               /\ exists name,
                   r = Return (VStr name)
                   /\ starts_with name (lit "/dev/") = true
                   /\ name = (if starts_with (strip out) (lit "/dev/")
                              then strip out else lit "/dev/" ++ strip out)
           | inl e => is_Exception e = false /\ r = Raise e
           end
       | [EvTtyname 0%Z x0] =>
           ps_names_terminal x = false
           /\ (forall e, x = inl e -> is_Exception e = true)
           /\ match x0 with
              | inr name => r = Return (VStr name)
              | inl e => no_terminal e = false /\ r = Raise e
              end
       | [EvTtyname 0%Z (inl e0); EvTtyname 1%Z x1] =>
           ps_names_terminal x = false
           /\ (forall e, x = inl e -> is_Exception e = true)
           /\ no_terminal e0 = true
           /\ match x1 with
              | inr name => r = Return (VStr name)
              | inl e1 =>
                  r = if no_terminal e1 then Return VNone else Raise e1
              end
       | _ => False
       end.
Proof.
  destruct w as [c tr].
  unfold get_tty, getppid, subprocess_run, ttyname, no_terminal,
    ps_names_terminal.
  unfold_py. run_cbn. fold (ps_argv (os_getppid env tr)).
  set (tr1 := tr ++ [EvGetppid (os_getppid env tr)]).
  destruct (os_run env tr1 (ps_argv (os_getppid env tr)) 2) as [e|out];
    run_cbn.
  1: destruct (is_Exception e) eqn:He; run_cbn.
  3: destruct (nonempty (strip out) && negb (str_eqb (strip out) (lit "??"))
               && negb (str_eqb (strip out) (lit "-"))) eqn:Hps; run_cbn.
  3: destruct (starts_with (strip out) (lit "/dev/")) eqn:Hdev; run_cbn.
  all: repeat match goal with
         | |- context [os_ttyname ?e ?h ?fd] =>
             let H := fresh "Htty" in
             destruct (os_ttyname e h fd) as [?e|?name] eqn:H; run_cbn
         | |- context [if ?b then _ else _] => destruct b eqn:?; run_cbn
         end.
  all: subst tr1; do 2 eexists;
    (split; [rewrite <- ?app_assoc; simpl; reflexivity|]);
    (split; [reflexivity|]).
  all: cbv beta iota.
  all: rewrite ?Hps.
  all: repeat split; auto.
  all: try solve [intros ? Heq; injection Heq as <-; assumption].
  all: try solve [intros ? Heq; discriminate Heq].
  all: try solve [eexists; repeat split;
                  [apply starts_with_dev || assumption
                  |rewrite ?Hdev; reflexivity]].
  all: match goal with
       | H : is_OSError ?e || is_AttributeError ?e = _ |- _ = if _ then _ else _ =>
           rewrite H; reflexivity
       end.
Qed.

(** ** [main] *)

(** X8. The end of the permission branch, for every reply. A dictionary
    that is not empty and whose decision is [allow] makes it print one
    line, the allow decision, which holds the event name and the behaviour
    and nothing of the reply; one whose decision is [deny] makes it print
    one line, the deny decision, whose message is the reason of the reply
    when that is true and the hook's own text otherwise; any other
    dictionary makes it print nothing; in all three cases the process ends
    with status 0. A reply that is no dictionary prints nothing: when it is
    false the process ends with status 0, and when it is true, such as a
    JSON array, it has no [get] and [AttributeError] is raised. *)
Theorem permission_outcome_exits (py : runtime) (denied_by_user : str)
        (response : value) (w : world ConnectionConfig) :
  permission_outcome py denied_by_user response w
  = match response with
    | VDict d =>
        let decision := dict_get_or d (lit "decision") (VStr (lit "ask")) in
        let reason := dict_get_or d (lit "reason") (VStr []) in
        (Raise (SystemExit 0),
         if nonempty d && is_str decision (lit "allow") then
           World (config w)
                 (trace w
                  ++ [EvPrint
                        (json_dumps py
                           (VDict
                              [(lit "hookSpecificOutput",
                                VDict
                                  [(lit "hookEventName",
                                    VStr (lit "PermissionRequest"));
                                   (lit "decision",
                                    VDict [(lit "behavior",
                                            VStr (lit "allow"))])])]))])
         else if nonempty d && is_str decision (lit "deny") then
           World (config w)
                 (trace w
                  ++ [EvPrint
                        (json_dumps py
                           (VDict
                              [(lit "hookSpecificOutput",
                                VDict
                                  [(lit "hookEventName",
                                    VStr (lit "PermissionRequest"));
                                   (lit "decision",
                                    VDict
                                      [(lit "behavior", VStr (lit "deny"));
                                       (lit "message",
                                        if truthy reason then reason
                                        else VStr denied_by_user)])])]))])
         else w)
    | _ =>
        (if truthy response then Raise AttributeError
         else Raise (SystemExit 0), w)
    end.
Proof.
  unfold permission_outcome, py_get, dict_get_or, print. unfold_py.
  destruct response as [| | | | | |d]; simpl;
    try reflexivity;
    try solve [match goal with
               | |- context [if ?b then _ else _] => destruct b
               end; reflexivity].
  destruct w as [c tr]. destruct (nonempty d); simpl; [|reflexivity].
  set (decision := match dict_get d (lit "decision") with
                   | Some x => x | None => VStr (lit "ask") end).
  destruct (is_str decision (lit "allow")) eqn:Hallow; simpl; [reflexivity|].
  destruct (is_str decision (lit "deny")) eqn:Hdeny; reflexivity.
Qed.

(** X9. [main] on bad input, whatever [send_event] is: a text that is not
    JSON ends the process with status 1, and JSON that is no object, which
    has no [get], raises [AttributeError]; in both cases before any call
    outside the process. *)
Theorem main_rejects_bad_input
        (py : runtime) (env : environment)
        (send_event : dict -> bool -> Py value) (denied_by_user : str)
        (stdin : str) (w : world ConnectionConfig) :
  match json_loads py stdin with
  | inl e =>
      hook_main py env send_event denied_by_user stdin w
      = (Raise (if is_JSONDecodeError e then SystemExit 1 else e), w)
  | inr (VDict _) => True
  | inr _ =>
      hook_main py env send_event denied_by_user stdin w
      = (Raise AttributeError, w)
  end.
Proof.
  unfold hook_main. unfold_py.
  destruct (json_loads py stdin) as [e|v].
  - destruct (is_JSONDecodeError e); reflexivity.
  - destruct v; first [reflexivity | exact I].
Qed.

Lemma str_eqb_eq (a b : str) : str_eqb a b = true -> a = b.
Proof.
  revert b. induction a as [|x a IH]; intros [|y b]; simpl; try discriminate;
    [reflexivity|].
  intros H. apply andb_true_iff in H as [Hx Hab].
  apply N.eqb_eq in Hx. subst. f_equal. auto.
Qed.

Lemma is_str_unique (v : value) (a b : str) :
  is_str v a = true -> is_str v b = true -> a = b.
Proof.
  destruct v; simpl; try discriminate. intros Ha Hb.
  apply str_eqb_eq in Ha, Hb. congruence.
Qed.

(** [main] on an object, once the terminal is known: one hand-over, with the
    state written out. *)
Lemma hook_main_sends
      (py : runtime) (env : environment)
      (send_event : dict -> bool -> Py value) (denied_by_user : str)
      (stdin : str) (d : dict) (w w1 : world ConnectionConfig)
      (tty : value) :
  json_loads py stdin = inr (VDict d) ->
  get_tty env (World (config w)
                     (trace w ++ [EvGetppid (os_getppid env (trace w))]))
  = (Return tty, w1) ->
  let event := dict_get_or d (lit "hook_event_name") (VStr []) in
  let notification_type := dict_get_or d (lit "notification_type") VNone in
  let tool := [(lit "tool", dict_get_or d (lit "tool_name") VNone);
               (lit "tool_input",
                dict_get_or d (lit "tool_input") (VDict []))] in
  let tool_use_id := dict_get_or d (lit "tool_use_id") VNone in
  let state :=
    base_state d (os_getppid env (trace w)) tty
    ++ [(lit "status", VStr (lit (status_of event notification_type)))] in
  hook_main py env send_event denied_by_user stdin w
  = if is_str event (lit "PermissionRequest") then
      permission_request py send_event denied_by_user (state ++ tool) w1
    else if permission_prompt d then (Raise (SystemExit 0), w1)
    else
      fire_and_forget send_event
        (state
         ++ (if tool_event event then
               tool ++ (if truthy tool_use_id
                        then [(lit "tool_use_id", tool_use_id)] else [])
             else if is_str event (lit "Notification") then
               [(lit "notification_type", notification_type);
                (lit "message", dict_get_or d (lit "message") VNone)]
             else []))
        w1.
Proof.
  intros Hjson Htty.
  unfold hook_main. unfold getppid, py_get. unfold_py.
  rewrite Hjson.
  cbn -[get_tty lit is_str with_tool with_status dict_set permission_request].
  rewrite Htty.
  cbn -[get_tty lit is_str with_tool with_status dict_set permission_request].
  unfold permission_prompt, tool_event, status_of, base_state, dict_get_or,
    fire_and_forget, with_tool, py_get.
  unfold_py.
  set (event := match dict_get d (lit "hook_event_name") with
                | Some x => x | None => VStr [] end).
  set (ntype := match dict_get d (lit "notification_type") with
                | Some x => x | None => VNone end).
  set (id := match dict_get d (lit "tool_use_id") with
             | Some x => x | None => VNone end).
  repeat match goal with
         | |- context [is_str ?v (lit ?s)] =>
             destruct (is_str v (lit s)) eqn:?;
             try solve [match goal with
                        | H1 : is_str ?u (lit ?a) = true,
                          H2 : is_str ?u (lit ?b) = true |- _ =>
                            pose proof (is_str_unique _ _ _ H1 H2) as Hne;
                            vm_compute in Hne; discriminate
                        end]
         end.
  all: try match goal with
           | |- context [truthy ?v] => destruct (truthy v)
           end.
  all: reflexivity.
Qed.

(** X10. A permission request: once the terminal is known, [main] hands
    over exactly one state, the five base entries, the status
    [waiting_for_approval], the tool and its input, and no [tool_use_id]
    even when the input has one; it asks [send_event] to wait for the
    reply, and what follows is the permission branch. *)
Theorem main_permission_request_state
        (py : runtime) (env : environment)
        (send_event : dict -> bool -> Py value) (denied_by_user : str)
        (stdin : str) (d : dict) (w w1 : world ConnectionConfig)
        (tty : value) :
  json_loads py stdin = inr (VDict d) ->
  get_tty env (World (config w)
                     (trace w ++ [EvGetppid (os_getppid env (trace w))]))
  = (Return tty, w1) ->
  is_str (dict_get_or d (lit "hook_event_name") (VStr []))
         (lit "PermissionRequest") = true ->
  hook_main py env send_event denied_by_user stdin w
  = bind (send_event
            (base_state d (os_getppid env (trace w)) tty
             ++ [(lit "status", VStr (lit "waiting_for_approval"));
                 (lit "tool", dict_get_or d (lit "tool_name") VNone);
                 (lit "tool_input",
                  dict_get_or d (lit "tool_input") (VDict []))])
            true)
         (permission_outcome py denied_by_user) w1.
Proof.
  intros Hjson Htty Hperm.
  rewrite (hook_main_sends py env send_event denied_by_user stdin d w w1 tty
             Hjson Htty).
  cbv zeta. rewrite Hperm. unfold status_of.
  repeat match goal with
         | |- context [is_str ?v (lit ?s)] =>
             destruct (is_str v (lit s)) eqn:?;
             try solve [match goal with
                        | H1 : is_str ?u (lit ?a) = true,
                          H2 : is_str ?u (lit ?b) = true |- _ =>
                            pose proof (is_str_unique _ _ _ H1 H2) as Hne;
                            vm_compute in Hne; discriminate
                        end]
         end.
  all: try discriminate.
  unfold permission_request. rewrite <- app_assoc. reflexivity.
Qed.

Lemma main_permission_request_state_witness :
  Nook.main Example.runtime no_terminal_there 0 permission_request_stdin
    (Example.fresh socket_config)
  = bind (Nook.send_event Example.runtime no_terminal_there 0
            [(lit "session_id", VStr (lit "s1"));
             (lit "cwd", VStr []);
             (lit "event", VStr (lit "PermissionRequest"));
             (lit "pid", VInt 7);
             (lit "tty", VNone);
             (lit "status", VStr (lit "waiting_for_approval"));
             (lit "tool", VStr (lit "Bash"));
             (lit "tool_input", VDict [])]
            true)
         (permission_outcome Example.runtime
            (lit "Denied by user via Claude Nook"))
         (World socket_config
                [EvGetppid 7; EvGetppid 7;
                 EvRun (ps_argv 7) 2 (inl FileNotFoundError);
                 EvTtyname 0 (inl OSError); EvTtyname 1 (inl OSError)]).
Proof.
  refine (main_permission_request_state Example.runtime no_terminal_there
            (Nook.send_event Example.runtime no_terminal_there 0)
            (lit "Denied by user via Claude Nook") permission_request_stdin
            [(lit "session_id", VStr (lit "s1"));
             (lit "hook_event_name", VStr (lit "PermissionRequest"));
             (lit "tool_name", VStr (lit "Bash"))]
            (Example.fresh socket_config) _ VNone _ _ _).
  - vm_compute. reflexivity.
  - vm_compute. reflexivity.
  - reflexivity.
Defined.

(** X11. A notification that a permission prompt is shown is never handed
    over: whatever [send_event] is, [main] ends the process with status 0
    once the terminal is known. *)
Theorem main_skips_permission_prompt
        (py : runtime) (env : environment)
        (send_event : dict -> bool -> Py value) (denied_by_user : str)
        (stdin : str) (d : dict) (w w1 : world ConnectionConfig)
        (tty : value) :
  json_loads py stdin = inr (VDict d) ->
  get_tty env (World (config w)
                     (trace w ++ [EvGetppid (os_getppid env (trace w))]))
  = (Return tty, w1) ->
  permission_prompt d = true ->
  hook_main py env send_event denied_by_user stdin w
  = (Raise (SystemExit 0), w1).
Proof.
  intros Hjson Htty Hprompt.
  rewrite (hook_main_sends py env send_event denied_by_user stdin d w w1 tty
             Hjson Htty).
  cbv zeta. rewrite Hprompt.
  destruct (is_str (dict_get_or d (lit "hook_event_name") (VStr []))
                   (lit "PermissionRequest")) eqn:Hperm; [|reflexivity].
  unfold permission_prompt in Hprompt.
  apply andb_true_iff in Hprompt as [Hnote _].
  pose proof (is_str_unique _ _ _ Hperm Hnote) as Hne.
  vm_compute in Hne. discriminate.
Qed.

Lemma main_skips_permission_prompt_witness :
  Island.main Example.runtime no_terminal_there 0 permission_prompt_stdin
    (Example.fresh (Example.island_config []))
  = (Raise (SystemExit 0),
     World (Example.island_config [])
           [EvGetppid 7; EvGetppid 7;
            EvRun (ps_argv 7) 2 (inl FileNotFoundError);
            EvTtyname 0 (inl OSError); EvTtyname 1 (inl OSError)]).
Proof.
  refine (main_skips_permission_prompt Example.runtime no_terminal_there
            (Island.send_event Example.runtime no_terminal_there 0)
            (lit "Denied by user via ClaudeIsland") permission_prompt_stdin
            [(lit "hook_event_name", VStr (lit "Notification"));
             (lit "notification_type", VStr (lit "permission_prompt"))]
            (Example.fresh (Example.island_config [])) _ VNone _ _ _).
  - vm_compute. reflexivity.
  - vm_compute. reflexivity.
  - reflexivity.
Defined.

(** X12. Every other event is handed over once, with no wait for a reply,
    and whatever [send_event] returns is dropped. The state starts with the
    five base entries; its status is the one the event maps to; the tool
    and its input are there exactly for [PreToolUse] and [PostToolUse], and
    the identifier of the use only when the input has a true one; the type
    and the message of a notification are there exactly for
    [Notification]. *)
Theorem main_fire_and_forget
        (py : runtime) (env : environment)
        (send_event : dict -> bool -> Py value) (denied_by_user : str)
        (stdin : str) (d : dict) (w w1 : world ConnectionConfig)
        (tty : value) :
  json_loads py stdin = inr (VDict d) ->
  get_tty env (World (config w)
                     (trace w ++ [EvGetppid (os_getppid env (trace w))]))
  = (Return tty, w1) ->
  let event := dict_get_or d (lit "hook_event_name") (VStr []) in
  let notification_type := dict_get_or d (lit "notification_type") VNone in
  let tool_use_id := dict_get_or d (lit "tool_use_id") VNone in
  is_str event (lit "PermissionRequest") = false ->
  permission_prompt d = false ->
  exists state,
    hook_main py env send_event denied_by_user stdin w
    = fire_and_forget send_event state w1
    /\ firstn 5 state = base_state d (os_getppid env (trace w)) tty
    /\ dict_get state (lit "status")
       = Some (VStr (lit (status_of event notification_type)))
    /\ dict_get state (lit "tool")
       = (if tool_event event
          then Some (dict_get_or d (lit "tool_name") VNone) else None)
    /\ dict_get state (lit "tool_input")
       = (if tool_event event
          then Some (dict_get_or d (lit "tool_input") (VDict [])) else None)
    /\ dict_get state (lit "tool_use_id")
       = (if tool_event event && truthy tool_use_id
          then Some tool_use_id else None)
    /\ dict_get state (lit "notification_type")
       = (if is_str event (lit "Notification")
          then Some notification_type else None)
    /\ dict_get state (lit "message")
       = (if is_str event (lit "Notification")
          then Some (dict_get_or d (lit "message") VNone) else None).
Proof.
  intros Hjson Htty event notification_type tool_use_id Hperm Hprompt.
  rewrite (hook_main_sends py env send_event denied_by_user stdin d w w1 tty
             Hjson Htty).
  cbv zeta. fold event. rewrite Hperm, Hprompt.
  eexists. split; [reflexivity|].
  split; [reflexivity|].
  unfold tool_event.
  destruct (is_str event (lit "PreToolUse")) eqn:Hpre;
    destruct (is_str event (lit "PostToolUse")) eqn:Hpost;
    destruct (is_str event (lit "Notification")) eqn:Hnote;
    try solve [match goal with
               | H1 : is_str ?u (lit ?a) = true,
                 H2 : is_str ?u (lit ?b) = true |- _ =>
                   pose proof (is_str_unique _ _ _ H1 H2) as Hne;
                   vm_compute in Hne; discriminate
               end].
  all: fold tool_use_id; destruct (truthy tool_use_id); simpl orb; simpl andb.
  all: repeat split; reflexivity.
Qed.

Lemma main_fire_and_forget_witness :
  exists state,
    Nook.main Example.runtime no_terminal_there 0 pre_tool_use_stdin
      (Example.fresh socket_config)
    = fire_and_forget (Nook.send_event Example.runtime no_terminal_there 0)
        state
        (World socket_config
               [EvGetppid 7; EvGetppid 7;
                EvRun (ps_argv 7) 2 (inl FileNotFoundError);
                EvTtyname 0 (inl OSError); EvTtyname 1 (inl OSError)])
    /\ dict_get state (lit "status") = Some (VStr (lit "running_tool"))
    /\ dict_get state (lit "tool") = Some (VStr (lit "Bash"))
    /\ dict_get state (lit "tool_use_id") = Some (VStr (lit "u1")).
Proof.
  destruct (main_fire_and_forget Example.runtime no_terminal_there
              (Nook.send_event Example.runtime no_terminal_there 0)
              (lit "Denied by user via Claude Nook") pre_tool_use_stdin
              [(lit "session_id", VStr (lit "s1"));
               (lit "hook_event_name", VStr (lit "PreToolUse"));
               (lit "tool_name", VStr (lit "Bash"));
               (lit "tool_use_id", VStr (lit "u1"))]
              (Example.fresh socket_config)
              (World socket_config
                     [EvGetppid 7; EvGetppid 7;
                      EvRun (ps_argv 7) 2 (inl FileNotFoundError);
                      EvTtyname 0 (inl OSError); EvTtyname 1 (inl OSError)])
              VNone)
    as (state & Hrun & _ & Hstatus & Htool & _ & Hid & _).
  - vm_compute. reflexivity.
  - vm_compute. reflexivity.
  - reflexivity.
  - reflexivity.
  - exists state. repeat split; assumption.
Defined.

(** ** The automatic mode, continued *)

Lemma existsb_is_network_app (a b : list event) :
  existsb is_network a = false -> existsb is_network b = false ->
  existsb is_network (a ++ b) = false.
Proof. intros Ha Hb. now rewrite existsb_app, Ha, Hb. Qed.

(** The end of the automatic branch of the nook hook when there is no
    secret and the host is outside the overlay range: no remote attempt. *)
Lemma remote_fallback_without_credential
      (py : runtime) (env : environment) (fuel : nat) (state : dict)
      (wait_for_response : bool) (result : option value)
      (w : world ConnectionConfig) :
  token (config w) = [] ->
  Nook.is_tailscale_ip py (resolved (config w)) = false ->
  exists r w' pre,
    Nook.remote_fallback py env fuel state wait_for_response result w
    = (r, w')
    /\ trace w' = trace w ++ pre
    /\ (pre = [] \/ exists x, pre = [EvRun dns_sd_argv 2 x])
    /\ (r = match result with
            | Some v => Return v
            | None => Raise UnboundLocalError
            end
        \/ exists e, pre = [EvRun dns_sd_argv 2 (inl e)] /\ r = Raise e).
Proof.
  intros Htok Hip.
  unfold Nook.remote_fallback. unfold_py.
  destruct (get_host_result env w)
    as (r & w1 & pre & Hrun & Htr & Hpre & Hr & Hc).
  rewrite Hrun.
  destruct Hr as [->|[e [-> Hraised]]].
  2:{ do 3 eexists. split; [reflexivity|]. split; [exact Htr|].
      split; [exact Hpre|]. right. exists e. auto. }
  assert (Htok1 : token (config w1) = []).
  { destruct Hc as [->| ->]; exact Htok. }
  rewrite Htok1, Hip. simpl. rewrite andb_false_r.
  destruct result as [v|]; simpl;
    do 3 eexists; (split; [reflexivity|]); (split; [exact Htr|]);
    (split; [exact Hpre|]); left; reflexivity.
Qed.

(** X13. The nook hook in automatic mode with no secret and a host outside
    the overlay range creates no Internet socket and connects to no host,
    whatever happens on the local socket. Its calls outside the process
    are the test for the socket path, then, if the path exists, those of
    the local transport, and then at most one run of the discovery
    command. When the socket path does not exist it never returns: it
    raises [UnboundLocalError], there being no result to give back, unless
    the discovery command raised something that left [get_host] first. *)
Theorem auto_mode_without_credential
        (py : runtime) (env : environment) (fuel : nat) (state : dict)
        (wait_for_response : bool) (w : world ConnectionConfig) :
  str_eqb (mode (config w)) (lit "socket") = false ->
  str_eqb (mode (config w)) (lit "tcp") = false ->
  token (config w) = [] ->
  Nook.is_tailscale_ip py (resolved (config w)) = false ->
  let '(r, w') := Nook.send_event py env fuel state wait_for_response w in
  exists found local pre,
    trace w'
    = trace w ++ EvPathExists (socket_path (config w)) found :: local ++ pre
    /\ found = os_path_exists env (trace w) (socket_path (config w))
    /\ Forall (local_event (S (length (trace w))) (socket_path (config w))
                           (json_dumps py (VDict state))) local
    /\ (pre = [] \/ exists x, pre = [EvRun dns_sd_argv 2 x])
    /\ existsb is_network (local ++ pre) = false
    /\ (found = false ->
        local = []
        /\ (r = Raise UnboundLocalError
            \/ exists e, pre = [EvRun dns_sd_argv 2 (inl e)] /\ r = Raise e)).
Proof.
  intros Hsock Htcp Htok Hip.
  unfold Nook.send_event, path_exists. unfold_py.
  cbv beta iota. rewrite Hsock, Htcp.
  destruct (os_path_exists env (trace w) (socket_path (config w))) eqn:Hpath;
    cbv beta iota.
  - match goal with
    | |- context [send_via_socket py env state wait_for_response ?w1] =>
        destruct (send_via_socket_effect py env state wait_for_response w1)
          as (r & w2 & new & Hrun & Htr & Hc & Hloc & _)
    end.
    rewrite Hrun. cbn [trace config] in Htr, Hc, Hloc.
    rewrite length_app, Nat.add_comm in Hloc. cbn [length Nat.add] in Hloc.
    assert (Htok2 : token (config w2) = []) by (rewrite Hc; exact Htok).
    assert (Hip2 : Nook.is_tailscale_ip py (resolved (config w2)) = false)
      by (rewrite Hc; exact Hip).
    destruct (local_event_not_network _ _ _ _ Hloc) as [Hnet _].
    assert (Hlocal : forall (r' : outcome value),
               exists found local pre,
                 trace w2
                 = trace w
                   ++ EvPathExists (socket_path (config w)) found
                      :: local ++ pre
                 /\ found = true
                 /\ Forall (local_event (S (length (trace w)))
                                        (socket_path (config w))
                                        (json_dumps py (VDict state))) local
                 /\ (pre = [] \/ exists x, pre = [EvRun dns_sd_argv 2 x])
                 /\ existsb is_network (local ++ pre) = false
                 /\ (found = false ->
                     local = []
                     /\ (r' = Raise UnboundLocalError
                         \/ exists e,
                             pre = [EvRun dns_sd_argv 2 (inl e)]
                             /\ r' = Raise e))).
    { intros r'. exists true, new, [].
      rewrite app_nil_r, Htr, <- app_assoc.
      repeat split; auto; discriminate. }
    destruct r as [v|e|]; [|apply Hlocal|apply Hlocal].
    destruct (negb (is_None v) || negb wait_for_response); [apply Hlocal|].
    destruct (remote_fallback_without_credential py env fuel state
                wait_for_response (Some v) w2 Htok2 Hip2)
      as (r & w' & pre & Hrun2 & Htr2 & Hpre & _).
    rewrite Hrun2. exists true, new, pre.
    rewrite Htr2, Htr, <- !app_assoc.
    split; [reflexivity|]. split; [reflexivity|]. split; [exact Hloc|].
    split; [exact Hpre|].
    split; [|discriminate].
    apply existsb_is_network_app; [exact Hnet|].
    destruct Hpre as [->|[x ->]]; reflexivity.
  - match goal with
    | |- context [Nook.remote_fallback py env fuel state wait_for_response
                    ?res ?w1] =>
        destruct (remote_fallback_without_credential py env fuel state
                    wait_for_response res w1 Htok Hip)
          as (r & w' & pre & Hrun2 & Htr2 & Hpre & Hr)
    end.
    rewrite Hrun2. cbn [trace] in Htr2. exists false, [], pre.
    rewrite Htr2, <- !app_assoc.
    split; [reflexivity|]. split; [reflexivity|]. split; [constructor|].
    split; [exact Hpre|].
    split; [destruct Hpre as [->|[x ->]]; reflexivity|].
    intros _. split; [reflexivity|exact Hr].
Qed.

Lemma auto_mode_without_credential_witness :
  let '(r, w') :=
    Nook.send_event Example.runtime nothing_there 0 [] false
      (Example.fresh default_config) in
  exists found local pre,
    trace w'
    = [] ++ EvPathExists (lit "/tmp/claude-nook.sock") found :: local ++ pre
    /\ found = false
    /\ Forall (local_event 1%nat (lit "/tmp/claude-nook.sock")
                           (json_dumps Example.runtime (VDict []))) local
    /\ (pre = [] \/ exists x, pre = [EvRun dns_sd_argv 2 x])
    /\ existsb is_network (local ++ pre) = false
    /\ (found = false ->
        local = []
        /\ (r = Raise UnboundLocalError
            \/ exists e, pre = [EvRun dns_sd_argv 2 (inl e)] /\ r = Raise e)).
Proof.
  apply (auto_mode_without_credential Example.runtime nothing_there 0 []
           false (Example.fresh default_config)); reflexivity.
Defined.

(** X14. The nook hook in automatic mode, when the socket path exists: the
    outcome of the local attempt is the outcome of [send_event], and
    nothing else is tried, unless a reply was awaited and the local attempt
    returned [None]. In particular an event that awaits no reply is never
    passed to the remote transport, even when the local one failed. *)
Theorem auto_mode_local_first
        (py : runtime) (env : environment) (fuel : nat) (state : dict)
        (wait_for_response : bool) (w w' : world ConnectionConfig)
        (r : outcome value) :
  str_eqb (mode (config w)) (lit "socket") = false ->
  str_eqb (mode (config w)) (lit "tcp") = false ->
  os_path_exists env (trace w) (socket_path (config w)) = true ->
  send_via_socket py env state wait_for_response
    (World (config w)
           (trace w ++ [EvPathExists (socket_path (config w)) true]))
  = (r, w') ->
  wait_for_response = false \/ r <> Return VNone ->
  Nook.send_event py env fuel state wait_for_response w = (r, w').
Proof.
  intros Hsock Htcp Hpath Hrun Hwhen.
  unfold Nook.send_event, path_exists. unfold_py.
  cbv beta iota. rewrite Hsock, Htcp, Hpath. cbv beta iota.
  rewrite Hrun.
  destruct r as [v|e|]; try reflexivity.
  destruct Hwhen as [->|Hv].
  - rewrite orb_true_r. reflexivity.
  - destruct v; try reflexivity. contradiction.
Qed.

Lemma auto_mode_local_first_witness :
  Nook.send_event Example.runtime
    (Example.scripted [Example.Truth true; Example.Succeeds;
                       Example.Succeeds; Example.Fails ConnectionRefusedError])
    0 [] false (Example.fresh default_config)
  = (Return VNone,
     World default_config
           [EvPathExists (lit "/tmp/claude-nook.sock") true;
            EvSocket AF_UNIX None;
            EvSetTimeout 1%nat (inject_Z 300);
            EvConnect 1%nat (UnixPath (lit "/tmp/claude-nook.sock"))
                      (Some ConnectionRefusedError)]).
Proof.
  apply (auto_mode_local_first Example.runtime _ 0 [] false
           (Example.fresh default_config)); try reflexivity.
  left. reflexivity.
Defined.

(** X15. The island hook in automatic mode always makes the local attempt
    first. Without a secret, or when the socket path exists once that
    attempt is over, its outcome is the outcome of [send_event] and nothing
    reaches the network. Otherwise, the local attempt having returned, the
    remote one is made and its outcome is the outcome of [send_event],
    whatever the local one returned. *)
Theorem island_auto_mode
        (py : runtime) (env : environment) (fuel : nat) (state : dict)
        (wait_for_response : bool) (w w0 : world ConnectionConfig)
        (r0 : outcome value) :
  str_eqb (mode (config w)) (lit "socket") = false ->
  str_eqb (mode (config w)) (lit "tcp") = false ->
  send_via_socket py env state wait_for_response w = (r0, w0) ->
  let found := os_path_exists env (trace w0) (socket_path (config w)) in
  let checked :=
    World (config w)
          (trace w0 ++ [EvPathExists (socket_path (config w)) found]) in
  let '(r, w') := Island.send_event py env fuel state wait_for_response w in
  (token (config w) = [] -> r = r0 /\ w' = w0)
  /\ (token (config w) <> [] -> found = true ->
      r = r0 /\ (forall v, r0 = Return v -> w' = checked))
  /\ (token (config w) = [] \/ found = true ->
      exists new, trace w' = trace w ++ new
                  /\ existsb is_network new = false)
  /\ (token (config w) <> [] -> found = false -> forall v, r0 = Return v ->
      (r, w') = Island.send_via_tcp py env fuel state wait_for_response
                  checked).
Proof.
  intros Hsock Htcp Hrun.
  destruct (send_via_socket_effect py env state wait_for_response w)
    as (r1 & w1 & new & Hrun1 & Htr & Hc & Hloc & _).
  rewrite Hrun in Hrun1. injection Hrun1 as <- <-.
  destruct (local_event_not_network _ _ _ _ Hloc) as [Hnet _].
  unfold Island.send_event, path_exists. unfold_py.
  cbv beta iota. rewrite Hsock, Htcp. cbv beta iota. rewrite Hrun.
  destruct r0 as [v|e|]; cbn [fst snd]; rewrite ?Hc.
  2,3: repeat split; try discriminate; eauto.
  destruct (token (config w)) as [|t0 ts] eqn:Htok; cbn [nonempty].
  { repeat split; try congruence; eauto. }
  destruct (os_path_exists env (trace w0) (socket_path (config w)))
    eqn:Hfound; cbn [negb].
  - repeat split; try discriminate; try reflexivity.
    + intros v' _. rewrite Hc. reflexivity.
    + intros _. exists (new ++ [EvPathExists (socket_path (config w)) true]).
      cbn [trace]. split; [now rewrite Htr, app_assoc|].
      apply existsb_is_network_app; [exact Hnet|reflexivity].
  - destruct (Island.send_via_tcp py env fuel state wait_for_response _)
      as [r w'] eqn:Htcprun.
    repeat split; try discriminate; try congruence.
    intros [H|H]; discriminate.
Qed.

Lemma island_auto_mode_witness :
  let '(r, w') :=
    Island.send_event Example.runtime island_nothing_there 0 [] false
      (Example.fresh (Example.island_config [])) in
  r = Return VNone
  /\ w' = World (Example.island_config [])
                [EvSocket AF_UNIX None;
                 EvSetTimeout 0%nat (inject_Z 300);
                 EvConnect 0%nat (UnixPath (lit "/tmp/claude-island.sock"))
                           (Some FileNotFoundError)].
Proof.
  refine (proj1 (island_auto_mode Example.runtime island_nothing_there 0 []
                   false (Example.fresh (Example.island_config []))
                   (World (Example.island_config []) _) (Return VNone)
                   eq_refl eq_refl eq_refl) eq_refl).
Defined.

(** ** The remote transport *)

Lemma send_payload_traffic (py : runtime) (env : environment) (s : sock)
      (state : dict) (wait_for_response : bool)
      (w : world ConnectionConfig) :
  exists r w' post,
    send_payload py env s state wait_for_response w = (r, w')
    /\ trace w' = trace w ++ post
    /\ config w' = config w
    /\ sent post = [json_dumps py (VDict state)]
    /\ Forall (exchange_event s) post.
Proof.
  destruct w as [c tr].
  unfold send_payload. unfold_sys. unfold_py.
  run_cbn.
  repeat step.
  all: try destruct (json_loads py _).
  all: do 3 eexists; (split; [reflexivity|]); simpl.
  all: split; [rewrite <- ?app_assoc; simpl; reflexivity|].
  all: repeat split; try reflexivity.
  all: repeat constructor.
Qed.

Lemma read_auth_response_traffic (env : environment) (fuel : nat) (s : sock)
      (buf : bytes) (w : world ConnectionConfig) :
  exists r w' post,
    read_auth_response env fuel s buf w = (r, w')
    /\ trace w' = trace w ++ post
    /\ config w' = config w
    /\ sent post = []
    /\ Forall (exchange_event s) post.
Proof.
  revert buf w. induction fuel as [|fuel IH]; intros buf [c tr]; simpl.
  - destruct (has_newline buf); unfold_py;
      do 2 eexists; exists []; (split; [reflexivity|]); simpl;
      rewrite !app_nil_r; repeat split; constructor.
  - destruct (has_newline buf).
    { unfold_py. do 2 eexists. exists []. split; [reflexivity|]. simpl.
      rewrite !app_nil_r. repeat split; constructor. }
    unfold_sys. unfold_py. run_cbn.
    destruct (os_recv env tr s 64) as [e|b]; run_cbn.
    + do 2 eexists. exists [EvRecv s 64 (inl e)].
      split; [reflexivity|]. simpl. repeat split; repeat constructor.
    + destruct (nonempty (firstn 64 b)) eqn:Hne; run_cbn.
      * match goal with
        | |- context [read_auth_response env fuel s ?b' ?w1] =>
            destruct (IH b' w1)
              as (r & w' & post & Hr & Htr & Hc & Hs & Hall)
        end.
        rewrite Hr. do 2 eexists.
        exists (EvRecv s 64 (inr (firstn 64 b)) :: post).
        split; [reflexivity|].
        simpl in Htr, Hc. rewrite Htr, <- app_assoc. simpl.
        repeat split; auto. constructor; [reflexivity|exact Hall].
      * do 2 eexists. exists [EvRecv s 64 (inr (firstn 64 b)); EvClose s].
        split; [reflexivity|]. simpl.
        rewrite <- app_assoc. simpl. repeat split; repeat constructor.
Qed.

Lemma authenticate_traffic (py : runtime) (env : environment) (fuel : nat)
      (s : sock) (state : dict) (wait_for_response : bool)
      (w : world ConnectionConfig) :
  exists r w' post,
    authenticate py env fuel s state wait_for_response w = (r, w')
    /\ trace w' = trace w ++ post
    /\ config w' = config w
    /\ Forall (exchange_event s) post
    /\ (sent post = []
        \/ exists line,
            str_encode (lit "AUTH " ++ token (config w) ++ [10]) = Some line
            /\ (sent post = [line]
                \/ sent post = [line; json_dumps py (VDict state)])).
Proof.
  destruct w as [c tr].
  unfold authenticate. unfold_sys. unfold_py.
  run_cbn.
  destruct (str_encode (lit "AUTH " ++ token c ++ [10])) as [line|] eqn:Henc;
    run_cbn.
  2:{ do 2 eexists. exists []. split; [reflexivity|]. simpl.
      rewrite app_nil_r. repeat split; auto. }
  destruct (os_sendall env tr s line); run_cbn.
  { do 2 eexists. exists [EvSendAll s line (Some e)].
    split; [reflexivity|]. simpl.
    split; [reflexivity|]. split; [reflexivity|].
    split; [repeat constructor|].
    right. exists line. auto. }
  match goal with
  | |- context [read_auth_response env fuel s ?b' ?w1] =>
      destruct (read_auth_response_traffic env fuel s b' w1)
        as (r & [c1 tr1] & post & Hr & Htr & Hc & Hs & Hall)
  end.
  rewrite Hr. simpl in Htr, Hc. subst.
  assert (Hdone : forall (r' : outcome value) more,
             Forall (exchange_event s) more ->
             sent more = [] \/ sent more = [json_dumps py (VDict state)] ->
             exists (r : outcome value) (w' : world ConnectionConfig) post',
               (r', World c (((tr ++ [EvSendAll s line None]) ++ post) ++ more))
               = (r, w')
               /\ trace w' = tr ++ post'
               /\ config w' = c
               /\ Forall (exchange_event s) post'
               /\ (sent post' = []
                   \/ exists line',
                       Some line = Some line'
                       /\ (sent post' = [line']
                           \/ sent post'
                              = [line'; json_dumps py (VDict state)]))).
  { intros r' more Hmore Hsent. do 2 eexists.
    exists (EvSendAll s line None :: post ++ more).
    split; [reflexivity|]. cbn [trace config].
    split; [rewrite <- !app_assoc; reflexivity|].
    split; [reflexivity|].
    split.
    { constructor; [reflexivity|]. apply Forall_app. auto. }
    right. exists line. split; [reflexivity|].
    rewrite sent_send, sent_app, Hs. simpl.
    destruct Hsent as [-> | ->]; auto. }
  destruct r as [[buf|]|e|]; run_cbn.
  2-4: rewrite <- (app_nil_r (_ ++ post)); apply Hdone; auto.
  destruct (bytes_decode buf) as [text|]; run_cbn.
  2:{ rewrite <- (app_nil_r (_ ++ post)); apply Hdone; auto. }
  destruct (negb (str_eqb (strip text) (lit "OK")));
    run_cbn.
  { apply Hdone; [repeat constructor|left; reflexivity]. }
  match goal with
  | |- context [send_payload py env s state wait_for_response ?w1] =>
      destruct (send_payload_traffic py env s state wait_for_response w1)
        as (r & [c2 tr2] & post2 & Hr2 & Htr2 & Hc2 & Hs2 & Hall2)
  end.
  rewrite Hr2. simpl in Htr2, Hc2. subst.
  apply Hdone; auto.
Qed.

Lemma sent_cons (e : event) (tr : list event) :
  sent (e :: tr)
  = match e with EvSendAll _ data _ => [data] | _ => [] end ++ sent tr.
Proof. reflexivity. Qed.

Lemma sent_nil : sent [] = [].
Proof. reflexivity. Qed.

Lemma exchange_is_remote (s : sock) (h : str) (p : Z) (post : list event) :
  Forall (exchange_event s) post -> Forall (remote_event s h p) post.
Proof.
  apply Forall_impl. intros e H.
  destruct e; simpl in *; try contradiction; auto.
Qed.

(** X16. What [send_via_tcp] of the island hook does outside the process,
    given a secret: after creating its socket, every call is on that
    socket, the only address is the configured host and port, and what it
    sends is nothing, or the AUTH line alone, or the AUTH line and then the
    payload: the payload is never sent except after the AUTH line. The
    configuration is left alone. *)
Theorem island_tcp_traffic
        (py : runtime) (env : environment) (fuel : nat) (state : dict)
        (wait_for_response : bool) (w : world ConnectionConfig) :
  token (config w) <> [] ->
  let '(r, w') := Island.send_via_tcp py env fuel state wait_for_response w in
  exists x rest,
    trace w' = trace w ++ EvSocket AF_INET x :: rest
    /\ Forall (remote_event (length (trace w)) (host (config w))
                            (port (config w))) rest
    /\ (sent rest = []
        \/ exists line,
            str_encode (lit "AUTH " ++ token (config w) ++ [10]) = Some line
            /\ (sent rest = [line]
                \/ sent rest = [line; json_dumps py (VDict state)]))
    /\ config w' = config w.
Proof.
  destruct w as [c tr]. cbn [config trace]. intros Htok.
  unfold Island.send_via_tcp. unfold_sys. unfold_py.
  run_cbn.
  destruct (token c) as [|t0 ts] eqn:Htoken; [contradiction|]. run_cbn.
  repeat step.
  all: try match goal with
         | |- context [authenticate ?p ?e ?f ?s ?st ?wt ?w0] =>
             destruct (authenticate_traffic p e f s st wt w0)
               as (o & w2 & post & Hsp & Hpost & Hc & Hall & Hsent);
             rewrite Hsp; destruct w2 as [c2 tr2]; cbn [trace config] in *;
             destruct o
         end.
  all: unfold except_tcp; unfold_py; repeat step.
  all: subst.
  all: do 2 eexists;
    (split; [rewrite <- ?app_assoc; cbn [app]; reflexivity|]).
  all: split;
    [repeat (apply Forall_cons; [cbn [remote_event]; auto|]);
     solve [apply exchange_is_remote; assumption | constructor]|].
  all: rewrite ?Htoken in *.
  all: rewrite ?sent_cons, ?sent_nil; cbn [app].
  all: split; [|reflexivity].
  all: try solve [left; reflexivity].
  all: exact Hsent.
Qed.

Lemma island_tcp_traffic_witness :
  let '(r, w') :=
    Island.send_via_tcp Example.runtime greeting_peer 1 [] false
      (Example.fresh island_tcp_config) in
  exists x rest,
    trace w' = [] ++ EvSocket AF_INET x :: rest
    /\ Forall (remote_event 0%nat (lit "127.0.0.1") 4851) rest
    /\ (sent rest = []
        \/ exists line,
            str_encode (lit "AUTH " ++ lit "s3cret" ++ [10]) = Some line
            /\ (sent rest = [line]
                \/ sent rest = [line; json_dumps Example.runtime (VDict [])]))
    /\ config w' = island_tcp_config.
Proof.
  refine (island_tcp_traffic Example.runtime greeting_peer 1 [] false
            (Example.fresh island_tcp_config) _).
  vm_compute. discriminate.
Defined.

(** X17. What [send_via_tcp] of the nook hook does outside the process:
    at most one run of the discovery command, then its socket, and then
    every call is on that socket; the only address is the host the
    configuration resolved to before the call, with the configured port;
    what it sends is the payload alone, or the AUTH line, once, and then at
    most the payload, once; and without a secret the AUTH line is never
    sent. Of the configuration, at most the mark that discovery was
    attempted changes. *)
Theorem nook_tcp_traffic
        (py : runtime) (env : environment) (fuel : nat) (state : dict)
        (wait_for_response : bool) (w : world ConnectionConfig) :
  let '(r, w') := Nook.send_via_tcp py env fuel state wait_for_response w in
  exists pre rest,
    trace w' = trace w ++ pre ++ rest
    /\ (pre = [] \/ exists x, pre = [EvRun dns_sd_argv 2 x])
    /\ match rest with
       | [] => exists e, r = Raise e
       | first :: rest' =>
           (exists x, first = EvSocket AF_INET x)
           /\ Forall (remote_event (length (trace w ++ pre))
                                   (resolved (config w)) (port (config w)))
                     rest'
       end
    /\ remote_traffic (config w) (json_dumps py (VDict state)) (sent rest)
    /\ (token (config w) = [] ->
        sent rest = [] \/ sent rest = [json_dumps py (VDict state)])
    /\ (config w' = config w
        \/ config w' = with_discovery_attempted (config w) true).
Proof.
  unfold Nook.send_via_tcp, remote_traffic. unfold bind at 1.
  destruct (get_host_result env w)
    as (r0 & w1 & pre & Hget & Htr & Hpre & Hr0 & Hcfg).
  rewrite Hget.
  assert (Hport : port (config w1) = port (config w))
    by (destruct Hcfg as [-> | ->]; reflexivity).
  assert (Htoken : token (config w1) = token (config w))
    by (destruct Hcfg as [-> | ->]; reflexivity).
  destruct Hr0 as [->|[e [-> _]]].
  2:{ exists pre, []. rewrite app_nil_r. repeat split; eauto. }
  destruct w1 as [c1 tr1]. cbn [trace config] in *. subst tr1.
  unfold_sys. unfold_py.
  run_cbn.
  repeat step.
  all: try match goal with
         | |- context [send_payload ?p ?e ?s ?st ?wt ?w0] =>
             destruct (send_payload_traffic p e s st wt w0)
               as (o & w2 & post & Hsp & Hpost & Hc & Hsent & Hall);
             rewrite Hsp; destruct w2 as [c2 tr2]; cbn [trace config] in *;
             destruct o
         | |- context [authenticate ?p ?e ?f ?s ?st ?wt ?w0] =>
             destruct (authenticate_traffic p e f s st wt w0)
               as (o & w2 & post & Hsp & Hpost & Hc & Hall & Hsent);
             rewrite Hsp; destruct w2 as [c2 tr2]; cbn [trace config] in *;
             destruct o
         end.
  all: unfold except_tcp; unfold_py; repeat step.
  all: subst.
  all: exists pre; eexists;
    (split; [rewrite <- ?app_assoc; cbn [app]; reflexivity|]).
  all: split; [exact Hpre|].
  all: split;
    [split; [eexists; reflexivity|];
     rewrite ?Hport;
     repeat (apply Forall_cons; [cbn [remote_event]; auto|]);
     solve [apply exchange_is_remote; assumption | constructor]|].
  all: rewrite ?sent_cons, ?sent_nil; cbn [app].
  all: split; [|split; [|exact Hcfg]].
  all: try solve [left; reflexivity].
  all: try solve [intros _; left; reflexivity].
  all: try solve [right; left; exact Hsent].
  all: try solve [intros _; right; exact Hsent].
  all: rewrite ?Htoken in *.
  all: try solve [destruct Hsent as [Hs|(line & Hline & Hs)];
                  [left; exact Hs
                  |right; right; exists line; split; assumption]].
  all: intros Hnone;
    match goal with
    | H : negb (nonempty (token _)) = false |- _ =>
        rewrite Hnone in H; discriminate H
    end.
Qed.

Lemma try_except_tcp_swallows (body : Py value)
      (w : world ConnectionConfig) :
  match fst (try_except body except_tcp w) with
  | Raise e => caught e = false
  | _ => True
  end.
Proof.
  unfold try_except, except_tcp, caught. unfold_py.
  destruct (body w) as [[v|e|] w1]; simpl; auto.
  destruct (is_TimeoutError e) eqn:Htime; simpl; auto.
  destruct (is_ConnectionRefusedError e) eqn:Hrefused; simpl; auto.
  destruct (is_OSError e) eqn:Hos; simpl; auto.
  destruct (is_JSONDecodeError e) eqn:Hjson; simpl; auto.
  rewrite Hos, Hjson. reflexivity.
Qed.

Lemma get_host_raises (env : environment) (w : world ConnectionConfig)
      (e : exn) :
  fst (Nook.get_host env w) = Raise e ->
  os_run env (trace w) dns_sd_argv 2 = inl e
  /\ is_TimeoutExpired e || is_FileNotFoundError e = false.
Proof.
  destruct w as [c tr].
  unfold Nook.get_host, Nook.discover_via_bonjour, subprocess_run.
  unfold_py. simpl. fold dns_sd_argv.
  destruct (nonempty (host c)); simpl; [discriminate|].
  destruct (_discovery_attempted c); simpl; [discriminate|].
  destruct (os_run env tr dns_sd_argv 2) as [e'|out]; simpl;
    [|discriminate].
  destruct (is_TimeoutExpired e' || is_FileNotFoundError e') eqn:He; simpl;
    [discriminate|].
  intros H. injection H as <-. auto.
Qed.

(** X18. No [OSError], and so no time-out and no refused connection, and no
    [JSONDecodeError] leaves [send_via_tcp] of the island hook. In the nook
    hook the same holds of everything after the host is resolved; but the
    resolver runs outside the [try], so what the discovery command raises,
    other than the two errors [discover_via_bonjour] expects, leaves
    [send_via_tcp], an [OSError] such as [PermissionError] included. *)
Theorem tcp_swallows
        (py : runtime) (env : environment) (fuel : nat) (state : dict)
        (wait_for_response : bool) (w : world ConnectionConfig) :
  match fst (Island.send_via_tcp py env fuel state wait_for_response w) with
  | Raise e => caught e = false
  | _ => True
  end
  /\ match fst (Nook.send_via_tcp py env fuel state wait_for_response w) with
     | Raise e =>
         caught e = false
         \/ (os_run env (trace w) dns_sd_argv 2 = inl e
             /\ fst (Nook.get_host env w) = Raise e)
     | _ => True
     end.
Proof.
  split.
  - unfold Island.send_via_tcp. unfold bind at 1, get_config at 1.
    destruct (negb (nonempty (token (config w)))); [exact I|].
    apply try_except_tcp_swallows.
  - unfold Nook.send_via_tcp. unfold bind at 1.
    pose proof (get_host_raises env w) as Hhost.
    destruct (Nook.get_host env w) as [[h|e|] w1]; cbn [fst] in *.
    + match goal with
      | |- context [try_except ?b except_tcp ?w0] =>
          pose proof (try_except_tcp_swallows b w0) as Hs;
          destruct (fst (try_except b except_tcp w0)); auto
      end.
    + destruct (Hhost e eq_refl) as [Hrun _]. auto.
    + exact I.
Qed.

(** ** The authentication loop *)

(** X19. The loop that reads the answer to the AUTH line has no bound of
    its own: against a peer that keeps sending bytes without a newline it
    is still reading after any number of chunks, however many that is. *)
Theorem auth_loop_unbounded
        (env : environment) (s : sock) (fuel : nat) (buf : bytes)
        (w : world ConnectionConfig) :
  (forall tr, exists chunk,
      os_recv env tr s 64 = inr chunk
      /\ nonempty (firstn 64 chunk) = true
      /\ has_newline (firstn 64 chunk) = false) ->
  has_newline buf = false ->
  let '(r, w') := read_auth_response env fuel s buf w in
  r = OutOfFuel
  /\ exists new,
      trace w' = trace w ++ new
      /\ length new = fuel
      /\ Forall (fun e => exists chunk,
                     e = EvRecv s 64 (inr chunk) /\ nonempty chunk = true)
                new.
Proof.
  intros Hchatty. revert buf w.
  induction fuel as [|fuel IH]; intros buf [c tr] Hbuf; simpl; rewrite Hbuf.
  - unfold_py. split; [reflexivity|]. exists []. simpl.
    rewrite app_nil_r. auto.
  - unfold_sys. unfold_py. run_cbn.
    destruct (Hchatty tr) as (chunk & Hrecv & Hne & Hnl).
    rewrite Hrecv. run_cbn. rewrite Hne. run_cbn.
    match goal with
    | |- context [read_auth_response env fuel s ?b' ?w1] =>
        specialize (IH b' w1);
        destruct (read_auth_response env fuel s b' w1) as [r w']
    end.
    destruct IH as (Hr & new & Htr & Hlen & Hall).
    { rewrite has_newline_app, Hbuf, Hnl. reflexivity. }
    split; [exact Hr|].
    exists (EvRecv s 64 (inr (firstn 64 chunk)) :: new).
    cbn [trace] in *. rewrite Htr, <- app_assoc. simpl.
    repeat split; auto. constructor; eauto.
Qed.

Lemma auth_loop_unbounded_witness :
  let '(r, w') :=
    read_auth_response chatty_peer 1000 0%nat []
      (Example.fresh island_tcp_config) in
  r = OutOfFuel
  /\ exists new,
      trace w' = [] ++ new
      /\ length new = 1000%nat
      /\ Forall (fun e => exists chunk,
                     e = EvRecv 0%nat 64 (inr chunk)
                     /\ nonempty chunk = true)
                new.
Proof.
  apply (auth_loop_unbounded chatty_peer 0%nat 1000 []
           (Example.fresh island_tcp_config)).
  - intros tr. exists [x41]. repeat split; reflexivity.
  - reflexivity.
Defined.

(** X20. Once its connection is established, [send_via_tcp] of the nook
    hook always probes for a greeting, reading once under a time-out of
    half a second, and the next thing it does, if it does anything, is to
    restore the configured time-out: everything that follows the probe, the
    AUTH exchange and the payload, runs under the configured time-out.
    Nothing follows the probe only when it fails with something other than
    a time-out, or reads bytes that are not UTF-8. *)
Theorem nook_probe_precedes_exchange
        (py : runtime) (env : environment) (fuel : nat) (state : dict)
        (wait_for_response : bool) (w : world ConnectionConfig) :
  let '(r, w') := Nook.send_via_tcp py env fuel state wait_for_response w in
  exists pre rest,
    trace w' = trace w ++ pre ++ rest
    /\ (pre = [] \/ exists x, pre = [EvRun dns_sd_argv 2 x])
    /\ let s := length (trace w ++ pre) in
       let t := inject_Z (timeout (config w)) in
       let a := InetAddr (resolved (config w)) (port (config w)) in
       In (EvConnect s a None) rest ->
       exists g after,
         rest = [EvSocket AF_INET None; EvSetTimeout s t; EvConnect s a None;
                 EvSetTimeout s (1 # 2); EvRecv s 64 g] ++ after
         /\ match after with
            | [] => greeting_ok g = false /\ probe_silent g = false
            | e :: after' =>
                e = EvSetTimeout s t /\ Forall (exchange_event s) after'
            end.
Proof.
  unfold Nook.send_via_tcp. unfold bind at 1.
  destruct (get_host_result env w)
    as (r0 & w1 & pre & Hget & Htr & Hpre & Hr0 & Hcfg).
  rewrite Hget.
  assert (Hport : port (config w1) = port (config w))
    by (destruct Hcfg as [-> | ->]; reflexivity).
  assert (Htime : timeout (config w1) = timeout (config w))
    by (destruct Hcfg as [-> | ->]; reflexivity).
  destruct Hr0 as [->|[e [-> _]]].
  2:{ exists pre, []. rewrite app_nil_r.
      split; [exact Htr|]. split; [exact Hpre|]. cbv zeta. intros Hin.
      destruct Hin. }
  destruct w1 as [c1 tr1]. cbn [trace config] in *. subst tr1.
  unfold_sys. unfold_py.
  run_cbn.
  repeat step.
  all: try match goal with
         | |- context [send_payload ?p ?e ?s ?st ?wt ?w0] =>
             destruct (send_payload_traffic p e s st wt w0)
               as (o & w2 & post & Hsp & Hpost & Hc & Hsent & Hall);
             rewrite Hsp; destruct w2 as [c2 tr2]; cbn [trace config] in *;
             destruct o
         | |- context [authenticate ?p ?e ?f ?s ?st ?wt ?w0] =>
             destruct (authenticate_traffic p e f s st wt w0)
               as (o & w2 & post & Hsp & Hpost & Hc & Hall & Hsent);
             rewrite Hsp; destruct w2 as [c2 tr2]; cbn [trace config] in *;
             destruct o
         end.
  all: unfold except_tcp; unfold_py; repeat step.
  all: subst.
  all: exists pre; eexists;
    (split; [rewrite <- ?app_assoc; cbn [app]; reflexivity|]).
  all: split; [exact Hpre|].
  all: rewrite ?Hport, ?Htime.
  all: cbv zeta; intros Hin.
  all: try solve [exfalso; cbn [In] in Hin; intuition discriminate].
  all: do 2 eexists; (split; [reflexivity|]).
  all: try solve [split; [reflexivity|];
                  repeat (apply Forall_cons; [reflexivity|]);
                  solve [assumption | constructor]].
  all: cbn [greeting_ok probe_silent].
  all: repeat match goal with
              | H : bytes_decode _ = _ |- _ => rewrite H
              end.
  all: auto.
Qed.

(** ** Discovery *)

(** X21. [discover_via_bonjour] runs the discovery command once, with the
    time-out it is given, and never finds a host or a port: whatever the
    command prints, it returns the pair of [None]. A time-out of the
    command, or its absence from the machine, changes nothing; any other
    exception of the command leaves the function. *)
Theorem discover_never_finds (env : environment) (seconds : Z)
        (w : world ConnectionConfig) :
  let '(r, w') := Nook.discover_via_bonjour env seconds w in
  w' = World (config w)
             (trace w ++ [EvRun dns_sd_argv seconds
                            (os_run env (trace w) dns_sd_argv seconds)])
  /\ match r with
     | Return found => found = (None, None)
     | Raise e =>
         os_run env (trace w) dns_sd_argv seconds = inl e
         /\ is_TimeoutExpired e || is_FileNotFoundError e = false
     | OutOfFuel => False
     end.
Proof.
  unfold Nook.discover_via_bonjour, subprocess_run. unfold_py.
  cbv beta iota. fold dns_sd_argv.
  destruct (os_run env (trace w) dns_sd_argv seconds) as [e|out];
    cbn [fst snd config trace].
  - destruct (is_TimeoutExpired e || is_FileNotFoundError e) eqn:He;
      cbn [config trace]; auto.
  - auto.
Qed.

Lemma resolved_nonempty (c : ConnectionConfig) : nonempty (resolved c) = true.
Proof.
  unfold resolved.
  destruct (nonempty (host c)) eqn:Hhost; [exact Hhost|].
  destruct (_discovered_host c) as [h|]; [|reflexivity].
  destruct (nonempty h) eqn:Hh; [exact Hh|reflexivity].
Qed.

(** X22. The nook hook in automatic mode, when the socket path does not
    exist and there is a secret, or the resolved host is in the overlay
    range: once the host is resolved, the outcome of [send_event] is that
    of the remote transport. The host that [get_host] returns is never
    empty, so the test on it in [send_event] never decides anything. *)
Theorem auto_mode_remote
        (py : runtime) (env : environment) (fuel : nat) (state : dict)
        (wait_for_response : bool) (w w1 : world ConnectionConfig)
        (h : str) :
  str_eqb (mode (config w)) (lit "socket") = false ->
  str_eqb (mode (config w)) (lit "tcp") = false ->
  os_path_exists env (trace w) (socket_path (config w)) = false ->
  Nook.get_host env
    (World (config w)
           (trace w ++ [EvPathExists (socket_path (config w)) false]))
  = (Return h, w1) ->
  token (config w) <> []
  \/ Nook.is_tailscale_ip py (resolved (config w)) = true ->
  nonempty h = true
  /\ Nook.send_event py env fuel state wait_for_response w
     = Nook.send_via_tcp py env fuel state wait_for_response w1.
Proof.
  intros Hsock Htcp Hpath Hget Hcred.
  destruct (get_host_result env
              (World (config w)
                     (trace w ++ [EvPathExists (socket_path (config w))
                                               false])))
    as (r & w2 & pre & Hget2 & _ & _ & Hr & Hcfg).
  rewrite Hget in Hget2. injection Hget2 as <- <-.
  destruct Hr as [Hr|[e [Hr _]]]; [|discriminate]. injection Hr as ->.
  cbn [config] in *.
  split; [apply resolved_nonempty|].
  unfold Nook.send_event, path_exists. unfold_py.
  cbv beta iota. rewrite Hsock, Htcp, Hpath. cbv beta iota.
  unfold Nook.remote_fallback. unfold_py. rewrite Hget.
  rewrite resolved_nonempty.
  assert (Htok : token (config w1) = token (config w))
    by (destruct Hcfg as [-> | ->]; reflexivity).
  rewrite Htok.
  destruct Hcred as [Hcred|Hcred].
  - destruct (token (config w)); [contradiction|]. reflexivity.
  - rewrite Hcred, orb_true_r. reflexivity.
Qed.

Lemma auto_mode_remote_witness :
  Nook.send_event Example.runtime nothing_there 0 [] false
    (Example.fresh
       (Example.nook_config [("CLAUDE_NOOK_TOKEN", "s3cret")]%string))
  = Nook.send_via_tcp Example.runtime nothing_there 0 [] false
      (World (with_discovery_attempted
                (Example.nook_config
                   [("CLAUDE_NOOK_TOKEN", "s3cret")]%string) true)
             [EvPathExists (lit "/tmp/claude-nook.sock") false;
              EvRun dns_sd_argv 2 (inl FileNotFoundError)]).
Proof.
  refine (proj2 (auto_mode_remote Example.runtime nothing_there 0 [] false
                   (Example.fresh
                      (Example.nook_config
                         [("CLAUDE_NOOK_TOKEN", "s3cret")]%string))
                   _ (lit "127.0.0.1") eq_refl eq_refl eq_refl eq_refl _)).
  left. vm_compute. discriminate.
Defined.

(** X23. When the terminal cannot be determined because [get_tty] raises,
    [main] raises the same exception, whatever [send_event] is: nothing is
    handed over. *)
Theorem main_terminal_failure
        (py : runtime) (env : environment)
        (send_event : dict -> bool -> Py value) (denied_by_user : str)
        (stdin : str) (d : dict) (w w1 : world ConnectionConfig)
        (e : exn) :
  json_loads py stdin = inr (VDict d) ->
  get_tty env (World (config w)
                     (trace w ++ [EvGetppid (os_getppid env (trace w))]))
  = (Raise e, w1) ->
  hook_main py env send_event denied_by_user stdin w = (Raise e, w1).
Proof.
  intros Hjson Htty.
  unfold hook_main. unfold getppid, py_get. unfold_py.
  rewrite Hjson.
  cbn -[get_tty lit is_str with_tool with_status dict_set permission_request].
  rewrite Htty. reflexivity.
Qed.

Lemma main_terminal_failure_witness :
  Nook.main Example.runtime
    (Example.scripted
       [Example.Number 7; Example.Number 7; Example.Fails FileNotFoundError;
        Example.Fails ValueError])
    0 pre_tool_use_stdin (Example.fresh socket_config)
  = (Raise ValueError,
     World socket_config
           [EvGetppid 7; EvGetppid 7;
            EvRun (ps_argv 7) 2 (inl FileNotFoundError);
            EvTtyname 0 (inl ValueError)]).
Proof.
  refine (main_terminal_failure Example.runtime _
            (Nook.send_event Example.runtime _ 0)
            (lit "Denied by user via Claude Nook") pre_tool_use_stdin
            [(lit "session_id", VStr (lit "s1"));
             (lit "hook_event_name", VStr (lit "PreToolUse"));
             (lit "tool_name", VStr (lit "Bash"));
             (lit "tool_use_id", VStr (lit "u1"))]
            (Example.fresh socket_config) _ ValueError _ _).
  - vm_compute. reflexivity.
  - vm_compute. reflexivity.
Defined.
